(** * Financial Coach Agent

    A shallow embedding of the three decision-making parts of the program:

    - [src/analysis/financial_analyzer.py]: the analytics engine
      ([FinancialAnalyzer]),
    - [src/agent/financial_coach_agent.py]: the dialogue orchestrator
      ([FinancialCoachAgent.chat] and the graph built by [_build_graph]),
    - [src/voice/voice_interface.py]: the voice turn coordinator
      ([FinancialCoachVoiceAgent.llm_node]).

    Python [float] is IEEE 754 binary64, which is what Rocq's primitive
    [float] is, so amounts and every figure derived from them are computed
    here with the very operations the interpreter uses.  A Python [int] that
    meets a float (a span in days, a [len], a percentage) is converted as
    Python converts it. *)

From Stdlib Require Import ZArith List String Ascii Bool Lia Sorted Permutation.
From Stdlib Require Import Floats Uint63 DecimalString.
Import ListNotations.

#[local] Set Warnings "-inexact-float".
#[local] Open Scope Z_scope.

(** ** The Python runtime the sources rely on *)

Module Py.

(** Exceptions the modelled code can raise. *)
Inductive exn : Type :=
| ValueError (msg : string)
| GraphRecursionError (msg : string).

(** The outcome of a call: a value, or a raised exception. *)
Inductive result (A : Type) : Type :=
| Return (a : A)
| Raise (e : exn).
Arguments Return {A} a.
Arguments Raise {A} e.

Definition bind {A B} (r : result A) (k : A -> result B) : result B :=
  match r with
  | Return a => k a
  | Raise e => Raise e
  end.

(** [float(n)] for an [int] in the 63-bit range. *)
Definition float_of_int (n : Z) : float :=
  if n <? 0 then PrimFloat.opp (PrimFloat.of_uint63 (Uint63.of_Z (- n)))
  else PrimFloat.of_uint63 (Uint63.of_Z n).

(** [a > b] on floats. *)
Definition gt (a b : float) : bool := PrimFloat.ltb b a.

(** [max(a, b)]: the first argument unless the second is greater. *)
Definition max2 (a b : float) : float := if gt b a then b else a.

(** [sum(xs)]: accumulation from the integer [0], left to right.  (From
    CPython 3.12 on the built-in carries a correction for the rounding
    error of the additions along; nothing below depends on how a sum is
    rounded.) *)
Definition sum (xs : list float) : float :=
  fold_left PrimFloat.add xs 0%float.

(** [len(xs)] as a Python [int]. *)
Definition len {A} (xs : list A) : Z := Z.of_nat (List.length xs).

(** [str(e)] and [f"{e}"] for an exception raised with one message. *)
Definition str_of_exn (e : exn) : string :=
  match e with
  | ValueError msg => msg
  | GraphRecursionError msg => msg
  end.

(** [str(n)] and [f"{n}"] for an [int]. *)
Definition str_of_int (n : Z) : string := NilZero.string_of_int (Z.to_int n).

(** A [dict] keeps its keys in insertion order: an association list. *)
Section Dict.
Context {K V : Type} (eqb : K -> K -> bool).

Fixpoint get (d : list (K * V)) (k : K) : option V :=
  match d with
  | [] => None
  | (k', v) :: d' => if eqb k k' then Some v else get d' k
  end.

Definition contains (d : list (K * V)) (k : K) : bool :=
  match get d k with Some _ => true | None => false end.

Definition keys (d : list (K * V)) : list K := map fst d.
Definition values (d : list (K * V)) : list V := map snd d.
End Dict.

(** [d[k] += v] on a [defaultdict(float)]: a missing key starts from
    [0.0] and is added at the end; a present key keeps its place. *)
Fixpoint iadd {K : Type} (eqb : K -> K -> bool)
    (d : list (K * float)) (k : K) (v : float) : list (K * float) :=
  match d with
  | [] => [(k, (0 + v)%float)]
  | (k', w) :: d' =>
      if eqb k k' then (k', (w + v)%float) :: d'
      else (k', w) :: iadd eqb d' k v
  end.

(** [sorted(items, key=lambda x: x[1], reverse=True)]: the stable sort in
    descending order of the float in second position; an item moves past
    another only when its key is strictly smaller. *)
Fixpoint insert_desc {K : Type} (x : K * float) (l : list (K * float))
    : list (K * float) :=
  match l with
  | [] => [x]
  | y :: l' =>
      if PrimFloat.ltb (snd x) (snd y) then y :: insert_desc x l'
      else x :: y :: l'
  end.

Definition sorted_by_value_desc {K : Type} (items : list (K * float))
    : list (K * float) :=
  fold_right insert_desc [] items.

(** *** Strings *)

Definition is_upper (c : ascii) : bool :=
  let n := nat_of_ascii c in (65 <=? n)%nat && (n <=? 90)%nat.
Definition is_lower (c : ascii) : bool :=
  let n := nat_of_ascii c in (97 <=? n)%nat && (n <=? 122)%nat.
Definition to_lower (c : ascii) : ascii :=
  if is_upper c then ascii_of_nat (nat_of_ascii c + 32) else c.
Definition to_upper (c : ascii) : ascii :=
  if is_lower c then ascii_of_nat (nat_of_ascii c - 32) else c.

(** [s.lower()], on ASCII text. *)
Fixpoint lower (s : string) : string :=
  match s with
  | EmptyString => EmptyString
  | String c s' => String (to_lower c) (lower s')
  end.

(** [sub in s]. *)
Fixpoint str_in (sub s : string) : bool :=
  String.prefix sub s ||
  match s with
  | EmptyString => false
  | String _ s' => str_in sub s'
  end.

(** [s.replace(a, b)] for one-character [a] and [b]. *)
Fixpoint replace_char (a b : ascii) (s : string) : string :=
  match s with
  | EmptyString => EmptyString
  | String c s' =>
      String (if Ascii.eqb c a then b else c) (replace_char a b s')
  end.

(** [s.title()], on ASCII text: a letter that follows a non-letter is
    upper-cased, any other letter is lower-cased. *)
Fixpoint title_from (after_letter : bool) (s : string) : string :=
  match s with
  | EmptyString => EmptyString
  | String c s' =>
      let letter := is_upper c || is_lower c in
      String (if letter then (if after_letter then to_lower c else to_upper c)
              else c)
             (title_from letter s')
  end.
Definition title (s : string) : string := title_from false s.

End Py.

(** ** [datetime] *)

Module Datetime.

(** A naive [datetime.datetime]. *)
Record datetime : Type := mk_datetime {
  year : Z; month : Z; day : Z;
  hour : Z; minute : Z; second : Z; microsecond : Z
}.

Definition is_leap (y : Z) : bool :=
  (y mod 4 =? 0) && (negb (y mod 100 =? 0) || (y mod 400 =? 0)).

Definition days_before_year (y : Z) : Z :=
  let y' := y - 1 in y' * 365 + y' / 4 - y' / 100 + y' / 400.

Definition days_before_month_table : list Z :=
  [-1; 0; 31; 59; 90; 120; 151; 181; 212; 243; 273; 304; 334].

Definition days_before_month (y m : Z) : Z :=
  nth (Z.to_nat m) days_before_month_table (-1)
  + (if (2 <? m) && is_leap y then 1 else 0).

(** [date.toordinal()]: 1 for 0001-01-01. *)
Definition toordinal (d : datetime) : Z :=
  days_before_year (year d) + days_before_month (year d) (month d) + day d.

(** Microseconds since the start of day 0; datetimes compare as these. *)
Definition micros (d : datetime) : Z :=
  (((toordinal d * 24 + hour d) * 60 + minute d) * 60 + second d) * 1000000
  + microsecond d.

Definition us_per_day : Z := 86400000000.

(** [(a - b).days]: a [timedelta] is normalised with floor division. *)
Definition sub_days (a b : datetime) : Z := (micros a - micros b) / us_per_day.

(** [max(dates)] and [min(dates)] of a non-empty list: the first greatest
    and the first least element. *)
Definition max_of (d : datetime) (ds : list datetime) : datetime :=
  fold_left (fun best x => if micros best <? micros x then x else best) ds d.
Definition min_of (d : datetime) (ds : list datetime) : datetime :=
  fold_left (fun best x => if micros x <? micros best then x else best) ds d.

Definition pad (width : nat) (s : string) : string :=
  Nat.iter (width - String.length s) (String "0") s.

(** [d.strftime("%Y-%m")], for a year of four digits; a shorter year is
    padded here, which the C library behind [%Y] may not do. *)
Definition strftime_Y_m (d : datetime) : string :=
  (pad 4 (Py.str_of_int (year d)) ++ "-" ++ pad 2 (Py.str_of_int (month d)))%string.

End Datetime.

(** ** [src/models/transaction.py] *)

Module TransactionCategory.

Inductive t : Type :=
| GROCERIES | FUEL | RENT | UTILITIES | SHOPPING | CLOTHES
| CAR_SERVICE | CAR_PURCHASE | ENTERTAINMENT | DINING | HEALTHCARE
| INSURANCE | LOAN_PAYMENT | CREDIT_CARD_PAYMENT | DEBT_PAYMENT
| INCOME | SAVINGS | OTHER.

Definition value (c : t) : string :=
  match c with
  | GROCERIES => "groceries" | FUEL => "fuel" | RENT => "rent"
  | UTILITIES => "utilities" | SHOPPING => "shopping"
  | CLOTHES => "clothes" | CAR_SERVICE => "car_service"
  | CAR_PURCHASE => "car_purchase" | ENTERTAINMENT => "entertainment"
  | DINING => "dining" | HEALTHCARE => "healthcare"
  | INSURANCE => "insurance" | LOAN_PAYMENT => "loan_payment"
  | CREDIT_CARD_PAYMENT => "credit_card_payment"
  | DEBT_PAYMENT => "debt_payment" | INCOME => "income"
  | SAVINGS => "savings" | OTHER => "other"
  end.

(** The enum mixes in [str] and the model stores enum values
    ([use_enum_values]): categories are equal, and hash alike, when their
    values are the same string. *)
Definition eqb (a b : t) : bool := String.eqb (value a) (value b).

End TransactionCategory.

Module TransactionType.

Inductive t : Type :=
| DEBIT | CREDIT | LOAN_PAYMENT | DEBT_PAYMENT | TRANSFER.

End TransactionType.

Record Transaction : Type := mk_Transaction {
  date : Datetime.datetime;
  amount : float;
  category : TransactionCategory.t;
  description : string;
  type : TransactionType.t;
  account_type : option string
}.

(** ** [src/analysis/financial_analyzer.py] *)

(** The reports are the dictionaries the methods return, one record each.
    Where the source writes the integer [0] into a field that otherwise
    holds a float, the field holds [0.0] here: the two are equal in Python. *)

Module IncomeSummary.
Record t : Type := mk {
  total : float;
  average_monthly : float;
  count : Z;
  months_covered : float;
  monthly_savings : float;
  savings_rate : float;
  average_monthly_spending : float
}.
End IncomeSummary.

Module Strategy.
Record t : Type := mk {
  strategy : string;
  description : string;
  monthly_allocation : float
}.
End Strategy.

Module DebtAnalysis.
Record t : Type := mk {
  total_debt_payments : float;
  average_monthly_debt : float;
  debt_transaction_count : Z;
  monthly_breakdown : list (string * float);
  strategies : list Strategy.t;
  available_for_debt : float
}.
End DebtAnalysis.

(** An entry of [identify_spending_patterns]; the constructor is the entry's
    ["type"].  The ["insight"] text, a rendering of the other fields, is left
    out. *)
Module Pattern.
Inductive t : Type :=
| high_spending (category : TransactionCategory.t) (monthly_average : float)
| frequent_fuel (category : TransactionCategory.t) (frequency : Z)
| frequent_dining (category : TransactionCategory.t) (frequency : Z).

Definition type_ (p : t) : string :=
  match p with
  | high_spending _ _ => "high_spending"
  | frequent_fuel _ _ => "frequent_fuel"
  | frequent_dining _ _ => "frequent_dining"
  end.
End Pattern.

(** An entry of the ["recommendations"] list; the ["suggestion"] text, a
    rendering of [actual_monthly - recommended_monthly], is left out. *)
Module Recommendation.
Record t : Type := mk {
  category : string;
  recommended_monthly : float;
  actual_monthly : float
}.
End Recommendation.

Module BudgetRecommendations.
Record t : Type := mk {
  recommendations : list Recommendation.t;
  average_monthly_income : float;
  average_monthly_spending : float;
  total_recommended_budget : float
}.
End BudgetRecommendations.

Module FinancialAnalyzer.
Import Py Datetime.

Record t : Type := mk { transactions : list Transaction }.

(** [(max(dates) - min(dates)).days] for the dates of a non-empty list. *)
Definition span_days (t0 : Transaction) (ts : list Transaction) : Z :=
  let d := date t0 in
  let ds := map date ts in
  sub_days (max_of d ds) (min_of d ds).

Definition not_enough_data (span : Z) : string :=
  ("Not enough data: only " ++ str_of_int span ++ " days of transactions.")%string.

Definition _validate_data (txns : list Transaction) : result unit :=
  match txns with
  | [] => Raise (ValueError "No transactions provided.")
  | t0 :: ts =>
      let span := span_days t0 ts in
      if span <? 30 then Raise (ValueError (not_enough_data span))
      else Return tt
  end.

(** [FinancialAnalyzer(transactions)]. *)
Definition __init__ (txns : list Transaction) : result t :=
  bind (_validate_data txns) (fun _ => Return (mk txns)).

(** [max] of an empty list of dates raises. *)
Definition _months (self : t) : result float :=
  match transactions self with
  | [] => Raise (ValueError "max() arg is an empty sequence")
  | t0 :: ts =>
      Return (max2 (float_of_int (span_days t0 ts) / 30.0)%float 1.0%float)
  end.

Definition get_spending_by_category (self : t)
    : list (TransactionCategory.t * float) :=
  fold_left
    (fun result t =>
       if PrimFloat.ltb (amount t) 0
       then iadd TransactionCategory.eqb result (category t)
                 (PrimFloat.abs (amount t))
       else result)
    (transactions self) [].

Definition get_monthly_spending (self : t) : list (string * float) :=
  fold_left
    (fun result t =>
       if PrimFloat.ltb (amount t) 0
       then iadd String.eqb result (strftime_Y_m (date t))
                 (PrimFloat.abs (amount t))
       else result)
    (transactions self) [].

(** [sum(d.values()) / len(d) if d else 0]. *)
Definition mean_of_values {K : Type} (d : list (K * float)) : float :=
  match d with
  | [] => 0%float
  | _ :: _ => (sum (values d) / float_of_int (len d))%float
  end.

Definition no_income : IncomeSummary.t :=
  IncomeSummary.mk 0 0 0 0 0 0 0.

Definition get_income_summary (self : t) : IncomeSummary.t :=
  let income_txns := filter (fun t => gt (amount t) 0) (transactions self) in
  match income_txns with
  | [] => no_income
  | t0 :: ts =>
      let total := sum (map amount income_txns) in
      let months :=
        max2 (float_of_int (span_days t0 ts) / float_of_int 30)%float
             (float_of_int 1) in
      let avg_income := (total / months)%float in
      let monthly_spending := get_monthly_spending self in
      let avg_spending := mean_of_values monthly_spending in
      let savings := (avg_income - avg_spending)%float in
      IncomeSummary.mk
        total
        avg_income
        (len income_txns)
        months
        savings
        (if gt avg_income 0 then (savings / avg_income * 100)%float
         else 0%float)
        avg_spending
  end.

Definition debt_categories : list TransactionCategory.t :=
  [TransactionCategory.LOAN_PAYMENT;
   TransactionCategory.DEBT_PAYMENT;
   TransactionCategory.CREDIT_CARD_PAYMENT].

Definition in_debt_categories (c : TransactionCategory.t) : bool :=
  existsb (TransactionCategory.eqb c) debt_categories.

Definition debt_strategies (potential : float) : list Strategy.t :=
  [Strategy.mk "debt_snowball"
     "Pay minimums on all debts, then put extra toward the smallest balance."
     potential;
   Strategy.mk "debt_avalanche"
     "Pay minimums on all debts, then put extra toward the highest-interest balance."
     potential].

Definition get_debt_analysis (self : t) : DebtAnalysis.t :=
  let debt_txns :=
    filter (fun t => in_debt_categories (category t)) (transactions self) in
  let total := sum (map (fun t => PrimFloat.abs (amount t)) debt_txns) in
  let monthly :=
    fold_left
      (fun monthly t =>
         iadd String.eqb monthly (strftime_Y_m (date t))
              (PrimFloat.abs (amount t)))
      debt_txns [] in
  let avg_monthly := mean_of_values monthly in
  let available := IncomeSummary.monthly_savings (get_income_summary self) in
  let potential := (avg_monthly + max2 0 (available * 0.5))%float in
  let strategies :=
    if gt avg_monthly 0 then debt_strategies potential else [] in
  DebtAnalysis.mk total avg_monthly (len debt_txns) monthly strategies
                  available.

Definition count_category (c : TransactionCategory.t)
    (txns : list Transaction) : Z :=
  len (filter (fun t => TransactionCategory.eqb (category t) c) txns).

Definition identify_spending_patterns (self : t) : result (list Pattern.t) :=
  let patterns := [] in
  let category_spending := get_spending_by_category self in
  let monthly_spending := get_monthly_spending self in
  let avg_monthly := mean_of_values monthly_spending in
  bind (_months self) (fun months =>
  let patterns :=
    fold_left
      (fun patterns item =>
         let '(category, total) := item in
         let monthly_avg := (total / months)%float in
         if gt monthly_avg (avg_monthly * 0.3)%float
         then patterns ++ [Pattern.high_spending category monthly_avg]
         else patterns)
      (sorted_by_value_desc category_spending) patterns in
  let patterns :=
    if contains TransactionCategory.eqb category_spending
                TransactionCategory.FUEL
    then
      let fuel_frequency :=
        count_category TransactionCategory.FUEL (transactions self) in
      if gt (float_of_int fuel_frequency)
            (float_of_int 4 * months * 1.5)%float
      then patterns ++
           [Pattern.frequent_fuel TransactionCategory.FUEL fuel_frequency]
      else patterns
    else patterns in
  let patterns :=
    if contains TransactionCategory.eqb category_spending
                TransactionCategory.DINING
    then
      let dining_frequency :=
        count_category TransactionCategory.DINING (transactions self) in
      if gt (float_of_int dining_frequency)
            (float_of_int 8 * months * 1.5)%float
      then patterns ++
           [Pattern.frequent_dining TransactionCategory.DINING
                                    dining_frequency]
      else patterns
    else patterns in
  Return patterns).

Definition targets : list (TransactionCategory.t * Z) :=
  [(TransactionCategory.RENT, 30);
   (TransactionCategory.GROCERIES, 10);
   (TransactionCategory.FUEL, 5);
   (TransactionCategory.UTILITIES, 5);
   (TransactionCategory.DINING, 5);
   (TransactionCategory.SHOPPING, 5)].

(** [spending.get(category.value, 0)]. *)
Definition get_or_zero (spending : list (TransactionCategory.t * float))
    (c : TransactionCategory.t) : float :=
  match get TransactionCategory.eqb spending c with
  | Some v => v
  | None => 0%float
  end.

Definition get_budget_recommendations (self : t)
    : result BudgetRecommendations.t :=
  let income := get_income_summary self in
  let spending := get_spending_by_category self in
  let avg_income := IncomeSummary.average_monthly income in
  bind (_months self) (fun months =>
  let '(recommendations, total_recommended) :=
    fold_left
      (fun acc target =>
         let '(recommendations, total_recommended) := acc in
         let '(category, pct) := target in
         let recommended :=
           if gt avg_income 0
           then (avg_income * float_of_int pct / float_of_int 100)%float
           else 0%float in
         let actual := (get_or_zero spending category / months)%float in
         let total_recommended := (total_recommended + recommended)%float in
         if gt actual (recommended * 1.2)%float
         then
           let cat_name :=
             title (replace_char "_" " " (TransactionCategory.value category)) in
           (recommendations ++ [Recommendation.mk cat_name recommended actual],
            total_recommended)
         else (recommendations, total_recommended))
      targets ([], 0.0%float) in
  Return (BudgetRecommendations.mk
            recommendations
            avg_income
            (IncomeSummary.average_monthly_spending income)
            total_recommended)).

End FinancialAnalyzer.

(** ** [src/agent/financial_coach_agent.py] *)

(** LangChain messages, with the fields the agent reads.  A tool call is
    identified by the name of the tool it requests: the five tools take no
    argument. *)
Inductive BaseMessage : Type :=
| SystemMessage (content : string)
| HumanMessage (content : string)
| AIMessage (content : string) (tool_calls : list string)
| ToolMessage (content : string).

(** Truth value of a [str]. *)
Definition truthy (s : string) : bool := negb (String.eqb s "").

(** What the agent uses of LangGraph: the [add_messages] reducer, the
    [MemorySaver] checkpointer and the run of a compiled graph under a
    recursion limit. *)
Module LangGraph.
Import Py.

(** The reducer merges by message id.  The messages [chat] builds, the
    answers of the model and the results of the tools carry no id of an
    earlier message (one without id gets a fresh one), so the reducer
    appends them. *)
Definition add_messages (left right : list BaseMessage) : list BaseMessage :=
  left ++ right.

(** The checkpointer: the persisted messages of each thread, if any. *)
Definition MemorySaver : Type := string -> option (list BaseMessage).

Definition empty : MemorySaver := fun _ => None.

Definition put (m : MemorySaver) (thread_id : string)
    (messages : list BaseMessage) : MemorySaver :=
  fun k => if String.eqb k thread_id then Some messages else m k.

Definition persisted (m : MemorySaver) (thread_id : string)
    : list BaseMessage :=
  match m thread_id with Some messages => messages | None => [] end.

Inductive status : Type := done | out_of_steps.

(** The error of a run that is out of steps; its message is given up to
    the end of the first sentence, the library goes on with advice. *)
Definition recursion_error (limit : nat) : exn :=
  GraphRecursionError
    ("Recursion limit of " ++ str_of_int (Z.of_nat limit)
     ++ " reached without hitting a stop condition.")%string.

End LangGraph.

Module FinancialCoachAgent.
Import Py LangGraph.

(** The agent after [__init__]: [get_system_prompt] is a constant of the
    instance (the voice context is built once), the language model
    answers a message history with the content and the tool calls of an
    [AIMessage], and the [ToolNode] turns a requested tool name into the
    content of its [ToolMessage]. *)
Record t : Type := mk {
  user_id : string;
  get_system_prompt : string;
  llm_with_tools : list BaseMessage -> string * list string;
  tool_node : string -> string
}.

Inductive node : Type := agent | tools | END.

Definition should_continue (messages : list BaseMessage) : node :=
  match rev messages with
  | [] => END
  | AIMessage _ (_ :: _) :: _ => tools
  | _ :: _ => END
  end.

Definition call_model (self : t) (messages : list BaseMessage)
    : list BaseMessage :=
  let '(content, tool_calls) := llm_with_tools self messages in
  [AIMessage content tool_calls].

(** [ToolNode(self.tools)]: one [ToolMessage] per tool call of the last
    message, in call order. *)
Definition run_tools (self : t) (messages : list BaseMessage)
    : list BaseMessage :=
  match rev messages with
  | AIMessage _ tool_calls :: _ =>
      map (fun name => ToolMessage (tool_node self name)) tool_calls
  | _ => []
  end.

(** The compiled graph: entry point [agent]; after [agent], the edge chosen
    by [should_continue]; after [tools], back to [agent].  Each node run is
    one step; [steps] is what the recursion limit still allows. *)
Fixpoint run (self : t) (steps : nat) (next : node)
    (messages : list BaseMessage) : list BaseMessage * status :=
  match next with
  | END => (messages, done)
  | agent =>
      match steps with
      | O => (messages, out_of_steps)
      | S steps' =>
          let messages := add_messages messages (call_model self messages) in
          run self steps' (should_continue messages) messages
      end
  | tools =>
      match steps with
      | O => (messages, out_of_steps)
      | S steps' =>
          let messages := add_messages messages (run_tools self messages) in
          run self steps' agent messages
      end
  end.

(** [self.graph.invoke({"messages": messages}, config)]: the input is
    merged into the thread's checkpoint, the graph runs, every step is
    checkpointed, and running out of steps raises. *)
Definition invoke (self : t) (memory : MemorySaver)
    (messages : list BaseMessage) (thread_id : string)
    (recursion_limit : nat)
    : result (list BaseMessage) * MemorySaver :=
  let state := add_messages (persisted memory thread_id) messages in
  let '(final, st) := run self recursion_limit agent state in
  let memory := put memory thread_id final in
  match st with
  | done => (Return final, memory)
  | out_of_steps => (Raise (recursion_error recursion_limit), memory)
  end.

Definition is_SystemMessage (m : BaseMessage) : bool :=
  match m with SystemMessage _ => true | _ => false end.

(** Truth value of a list; [None] is modelled by the empty history. *)
Definition nonempty {A} (l : list A) : bool :=
  match l with [] => false | _ :: _ => true end.

(** The messages [chat] hands to the graph. *)
Definition chat_messages (self : t) (user_message : string)
    (conversation_history : option (list BaseMessage))
    : list BaseMessage :=
  let messages := [] in
  let history :=
    match conversation_history with Some h => h | None => [] end in
  let messages :=
    if negb (nonempty history) || negb (existsb is_SystemMessage history)
    then messages ++ [SystemMessage (get_system_prompt self)]
    else messages in
  let messages :=
    if nonempty history then messages ++ history else messages in
  messages ++ [HumanMessage user_message].

Record response : Type := mk_response { voice : string; detail : string }.

Definition fallback : string := "I've analyzed your data. How can I help?".

(** The loop over [reversed(result["messages"])]; the state is
    [(spoken_response, detailed_data)]. *)
Definition scan_step (acc : string * string) (msg : BaseMessage)
    : string * string :=
  let '(spoken_response, detailed_data) := acc in
  let spoken_response :=
    match msg with
    | AIMessage content _ =>
        if truthy content && negb (truthy detailed_data) then content
        else spoken_response
    | _ => spoken_response
    end in
  let detailed_data :=
    match msg with
    | ToolMessage content =>
        if negb (truthy detailed_data) then content else detailed_data
    | _ => detailed_data
    end in
  (spoken_response, detailed_data).

Definition extract (messages : list BaseMessage) : response :=
  let '(spoken_response, detailed_data) :=
    fold_left scan_step (rev messages) (fallback, ""%string) in
  let detailed_data :=
    if negb (truthy detailed_data) then spoken_response
    else detailed_data in
  mk_response spoken_response detailed_data.

Definition recursion_limit : nat := 10.

(** [thread_id or self.user_id]. *)
Definition thread_of (self : t) (thread_id : option string) : string :=
  match thread_id with
  | Some s => if truthy s then s else user_id self
  | None => user_id self
  end.

Definition chat (self : t) (memory : MemorySaver) (user_message : string)
    (conversation_history : option (list BaseMessage))
    (thread_id : option string) : result response * MemorySaver :=
  let messages := chat_messages self user_message conversation_history in
  let '(result, memory) :=
    invoke self memory messages (thread_of self thread_id)
           recursion_limit in
  (bind result (fun messages => Return (extract messages)), memory).

End FinancialCoachAgent.

(** ** [src/voice/voice_interface.py] *)

Module FinancialCoachVoiceAgent.
Import Py.

Definition _DATA_TRIGGER_KEYWORDS : list string :=
  ["plan"; "budget"; "breakdown"; "payoff"; "debt"; "schedule";
   "recommend"; "summary"; "details"; "what should"]%string.

(** The shapes of content that [llm_node] probes. *)
Inductive part : Type :=
| part_str (s : string)
| part_with_text (text : string)
| part_other.

Inductive content : Type :=
| content_str (s : string)
| content_list (parts : list part)
| content_with_text (text : string)
| content_other (str : string).

(** An item of the chat context: [role] is [str(msg.role)] when the item
    has a role, [id] is [msg.id] when the item has an id. *)
Record ChatItem : Type := mk_item {
  role : option string;
  item_content : content;
  id : option string
}.

(** [" ".join(texts)]. *)
Fixpoint join (texts : list string) : string :=
  match texts with
  | [] => ""
  | [s] => s
  | s :: rest => s ++ " " ++ join rest
  end%string.

Definition is_space (c : ascii) : bool :=
  let n := nat_of_ascii c in
  ((9 <=? n) && (n <=? 13) || (28 <=? n) && (n <=? 32))%nat.

Fixpoint lstrip (s : string) : string :=
  match s with
  | EmptyString => EmptyString
  | String c s' => if is_space c then lstrip s' else s
  end.

Fixpoint rstrip (s : string) : string :=
  match s with
  | EmptyString => EmptyString
  | String c s' =>
      match rstrip s' with
      | EmptyString => if is_space c then EmptyString else String c EmptyString
      | r => String c r
      end
  end.

(** [s.strip()], on ASCII text. *)
Definition strip (s : string) : string := rstrip (lstrip s).

Definition texts_of (c : content) : list string :=
  match c with
  | content_str s => [s]
  | content_list parts =>
      flat_map (fun p => match p with
                         | part_str s => [s]
                         | part_with_text text => [text]
                         | part_other => []
                         end) parts
  | content_with_text text => [text]
  | content_other str => [str]
  end.

Definition is_user (msg : ChatItem) : bool :=
  match role msg with
  | Some r => str_in "user" (lower r)
  | None => false
  end.

(** The loop over [reversed(messages)]: [user_text] is assigned at every
    user item until one gives a non-empty text. *)
Fixpoint extract_from (reversed : list ChatItem) (user_text : string)
    : string :=
  match reversed with
  | [] => user_text
  | msg :: rest =>
      if is_user msg then
        let user_text := strip (join (texts_of (item_content msg))) in
        if truthy user_text then user_text else extract_from rest user_text
      else extract_from rest user_text
  end.

Definition extract_user_text (messages : list ChatItem) : string :=
  extract_from (rev messages) "".

(** The payload of [_publish_data_card], before [json.dumps]. *)
Record data_card : Type := mk_card {
  card_type : string;
  question : string;
  card_content : string;
  session_id_of : string
}.

Definition payload_of (question content session_id : string) : data_card :=
  mk_card "financial_data_card" question content session_id.

(** The coroutine [_publish_data_card]: [publish_data] is the room's
    publish, which may raise; the result is the coroutine's outcome and
    the warnings it logs. *)
Definition _publish_data_card (publish_data : data_card -> result unit)
    (question content session_id : string) : result unit * list string :=
  let payload := payload_of question content session_id in
  match publish_data payload with
  | Return _ => (Return tt, [])
  | Raise e =>
      (Return tt, [("Data card publish failed: " ++ str_of_exn e)%string])
  end.

(** The voice agent: the wrapped coach, its checkpointer, the call's
    session id and the one mutable field of the turn record. *)
Record t : Type := mk {
  financial_agent : FinancialCoachAgent.t;
  memory : LangGraph.MemorySaver;
  session_id : string;
  last_handled_user_msg_id : option string
}.

(** What one run of [llm_node] does: it hands over to the default
    pipeline, or yields one chunk after scheduling with [create_task] the
    publication of the cards listed, or lets the exception of [chat]
    through. *)
Inductive outcome : Type :=
| delegated
| replied (chunk : string) (tasks : list data_card)
| raised (e : exn).

Definition user_msg_id_of (messages : list ChatItem) (user_text : string)
    : string :=
  match rev messages with
  | last :: _ => match id last with Some i => i | None => user_text end
  | [] => user_text
  end.

Definition has_trigger (user_text : string) : bool :=
  existsb (fun kw => str_in kw (lower user_text)) _DATA_TRIGGER_KEYWORDS.

(** [user_msg_id != self.last_handled_user_msg_id]. *)
Definition differs (user_msg_id : string) (last : option string) : bool :=
  match last with
  | Some i => negb (String.eqb user_msg_id i)
  | None => true
  end.

Definition llm_node (self : t) (messages : list ChatItem) : t * outcome :=
  let user_text := extract_user_text messages in
  if negb (truthy user_text) then (self, delegated)
  else
    let '(agent_response, memory) :=
      FinancialCoachAgent.chat (financial_agent self) (memory self)
        user_text None (Some (session_id self)) in
    let self :=
      mk (financial_agent self) memory (session_id self)
         (last_handled_user_msg_id self) in
    match agent_response with
    | Raise e => (self, raised e)
    | Return agent_response =>
        let voice_text := FinancialCoachAgent.voice agent_response in
        let detailed_content := FinancialCoachAgent.detail agent_response in
        let user_msg_id := user_msg_id_of messages user_text in
        if differs user_msg_id (last_handled_user_msg_id self)
        then
          if has_trigger user_text
          then
            (mk (financial_agent self) memory (session_id self)
                (Some user_msg_id),
             replied voice_text
               [payload_of user_text detailed_content (session_id self)])
          else (self, replied voice_text [])
        else (self, replied voice_text [])
    end.

(** A call: [llm_node] once per generation turn, the agent's state
    carried from turn to turn. *)
Fixpoint session (self : t) (turns : list (list ChatItem))
    : t * list outcome :=
  match turns with
  | [] => (self, [])
  | messages :: rest =>
      let '(self, o) := llm_node self messages in
      let '(self, os) := session self rest in
      (self, o :: os)
  end.

Definition tasks_of (o : outcome) : list data_card :=
  match o with
  | replied _ tasks => tasks
  | _ => []
  end.

End FinancialCoachVoiceAgent.

(** ** The tools of [create_financial_tools] *)

Module FinancialTools.
Import Py FinancialAnalyzer.

(** How an f-string renders a float: [{x:,.2f}] and [{x:.1f}]. *)
Record rendering : Type := mk_rendering {
  money : float -> string;
  one_decimal : float -> string
}.

Definition nl : string := String (ascii_of_nat 10) EmptyString.

Section Tools.
Variable fmt : rendering.
Variable analyzer : FinancialAnalyzer.t.

Definition get_spending_summary : string :=
  let spending := get_spending_by_category analyzer in
  match spending with
  | [] => "No spending data available."
  | _ :: _ =>
      let summary := ("Spending Summary:" ++ nl)%string in
      let total := sum (values spending) in
      let summary :=
        fold_left
          (fun summary item =>
             let '(category, amount) := item in
             let pct :=
               if gt total 0 then (amount / total * 100)%float
               else 0%float in
             (summary ++ "  " ++ TransactionCategory.value category ++ ": $"
              ++ money fmt amount ++ " (" ++ one_decimal fmt pct ++ "%)"
              ++ nl)%string)
          (sorted_by_value_desc spending) summary in
      (summary ++ nl ++ "Total Spending: $" ++ money fmt total)%string
  end.

Definition get_income_analysis : string :=
  let income := get_income_summary analyzer in
  if PrimFloat.eqb (IncomeSummary.total income) 0
  then "No income data available."
  else
    let result :=
      ("Income Analysis:" ++ nl
       ++ "  Total Income: $" ++ money fmt (IncomeSummary.total income) ++ nl
       ++ "  Average Monthly Income: $"
       ++ money fmt (IncomeSummary.average_monthly income) ++ nl
       ++ "  Average Monthly Spending: $"
       ++ money fmt (IncomeSummary.average_monthly_spending income) ++ nl
       ++ "  Monthly Savings: $"
       ++ money fmt (IncomeSummary.monthly_savings income) ++ nl
       ++ "  Savings Rate: "
       ++ one_decimal fmt (IncomeSummary.savings_rate income) ++ "%")%string in
    if PrimFloat.ltb (IncomeSummary.savings_rate income) 0
    then (result ++ nl ++ nl
          ++ "Warning: You're spending more than you earn.")%string
    else if PrimFloat.ltb (IncomeSummary.savings_rate income) 10
    then (result ++ nl ++ nl
          ++ "Recommendation: Aim for at least 10-20% savings rate.")%string
    else result.

Definition get_debt_analysis : string :=
  let debt := FinancialAnalyzer.get_debt_analysis analyzer in
  if PrimFloat.eqb (DebtAnalysis.total_debt_payments debt) 0
  then "No debt payments found in transactions."
  else
    let result :=
      ("Debt Analysis:" ++ nl
       ++ "  Total Debt Payments: $"
       ++ money fmt (DebtAnalysis.total_debt_payments debt) ++ nl
       ++ "  Average Monthly Debt Payment: $"
       ++ money fmt (DebtAnalysis.average_monthly_debt debt) ++ nl
       ++ "  Available for Additional Debt Payment: $"
       ++ money fmt (DebtAnalysis.available_for_debt debt))%string in
    match DebtAnalysis.strategies debt with
    | [] => result
    | _ :: _ =>
        fold_left
          (fun result strat =>
             (result ++ nl ++ "  "
              ++ title (replace_char "_" " " (Strategy.strategy strat))
              ++ ": " ++ Strategy.description strat
              ++ nl ++ "    Monthly Allocation: $"
              ++ money fmt (Strategy.monthly_allocation strat))%string)
          (DebtAnalysis.strategies debt)
          (result ++ nl ++ nl ++ "Recommended Strategies:")%string
    end.

(** The ["insight"] of a pattern entry. *)
Definition insight (p : Pattern.t) : string :=
  match p with
  | Pattern.high_spending category monthly_avg =>
      ("High spending in " ++ TransactionCategory.value category ++ ": $"
       ++ money fmt monthly_avg ++ "/month")%string
  | Pattern.frequent_fuel _ frequency =>
      ("Frequent fuel purchases: " ++ str_of_int frequency
       ++ " times over the period")%string
  | Pattern.frequent_dining _ frequency =>
      ("Frequent dining out: " ++ str_of_int frequency
       ++ " times over the period")%string
  end.

Definition identify_spending_issues : result string :=
  bind (identify_spending_patterns analyzer) (fun patterns =>
  match patterns with
  | [] => Return "No significant spending issues identified."%string
  | _ :: _ =>
      let result :=
        fold_left
          (fun result pattern =>
             (result ++ "  " ++ insight pattern ++ nl)%string)
          patterns ("Spending Patterns Identified:" ++ nl)%string in
      Return (FinancialCoachVoiceAgent.strip result)
  end).

(** The ["suggestion"] of a recommendation entry. *)
Definition suggestion (rec : Recommendation.t) : string :=
  ("Consider reducing " ++ Recommendation.category rec ++ " by $"
   ++ money fmt (Recommendation.actual_monthly rec
                 - Recommendation.recommended_monthly rec)%float
   ++ "/month")%string.

Definition get_budget_recommendations : result string :=
  bind (FinancialAnalyzer.get_budget_recommendations analyzer) (fun budget =>
  let result :=
    ("Budget Recommendations:" ++ nl
     ++ "  Average Monthly Income: $"
     ++ money fmt (BudgetRecommendations.average_monthly_income budget) ++ nl
     ++ "  Average Monthly Spending: $"
     ++ money fmt (BudgetRecommendations.average_monthly_spending budget) ++ nl
     ++ "  Recommended Total Budget: $"
     ++ money fmt (BudgetRecommendations.total_recommended_budget budget))%string in
  match BudgetRecommendations.recommendations budget with
  | [] => Return (result ++ nl ++ nl
                  ++ "No major budget adjustments needed.")%string
  | _ :: _ =>
      Return
        (fold_left
           (fun result rec =>
              (result ++ nl ++ "  " ++ Recommendation.category rec ++ ": "
               ++ suggestion rec)%string)
           (BudgetRecommendations.recommendations budget)
           (result ++ nl ++ nl ++ "Areas for Improvement:")%string)
  end).

End Tools.

End FinancialTools.

(** ** [src/data/transaction_loader.py]: the enum cells of a row *)

Module TransactionLoader.
Import Py.

Definition categories : list TransactionCategory.t :=
  [TransactionCategory.GROCERIES; TransactionCategory.FUEL;
   TransactionCategory.RENT; TransactionCategory.UTILITIES;
   TransactionCategory.SHOPPING; TransactionCategory.CLOTHES;
   TransactionCategory.CAR_SERVICE; TransactionCategory.CAR_PURCHASE;
   TransactionCategory.ENTERTAINMENT; TransactionCategory.DINING;
   TransactionCategory.HEALTHCARE; TransactionCategory.INSURANCE;
   TransactionCategory.LOAN_PAYMENT; TransactionCategory.CREDIT_CARD_PAYMENT;
   TransactionCategory.DEBT_PAYMENT; TransactionCategory.INCOME;
   TransactionCategory.SAVINGS; TransactionCategory.OTHER].

Definition types : list TransactionType.t :=
  [TransactionType.DEBIT; TransactionType.CREDIT;
   TransactionType.LOAN_PAYMENT; TransactionType.DEBT_PAYMENT;
   TransactionType.TRANSFER].

Definition type_value (t : TransactionType.t) : string :=
  match t with
  | TransactionType.DEBIT => "debit"
  | TransactionType.CREDIT => "credit"
  | TransactionType.LOAN_PAYMENT => "loan_payment"
  | TransactionType.DEBT_PAYMENT => "debt_payment"
  | TransactionType.TRANSFER => "transfer"
  end.

(** [Enum(value)]: the first member with that value, or [ValueError]. *)
Definition by_value {E : Type} (name : string) (value : E -> string)
    (members : list E) (v : string) : result E :=
  match find (fun m => String.eqb (value m) v) members with
  | Some m => Return m
  | None =>
      Raise (ValueError ("'" ++ v ++ "' is not a valid " ++ name)%string)
  end.

(** [TransactionCategory(row.get("category", "other").lower())], for a
    cell that is a string or a column that is absent. *)
Definition parse_category (cell : option string)
    : result TransactionCategory.t :=
  by_value "TransactionCategory" TransactionCategory.value categories
    (lower (match cell with Some s => s | None => "other"%string end)).

(** [TransactionType(row.get("type", "debit").lower())], likewise. *)
Definition parse_type (cell : option string) : result TransactionType.t :=
  by_value "TransactionType" type_value types
    (lower (match cell with Some s => s | None => "debit"%string end)).

End TransactionLoader.

(** ** [src/main.py]: the text loop *)

Module TextMode.
Import Py LangGraph.

(** What the loop prints for a line that reaches the coach. *)
Inductive printed : Type :=
| coach_says (response : FinancialCoachAgent.response)
| error_says (e : exn).

Definition is_quit (user_input : string) : bool :=
  existsb (String.eqb (lower user_input)) ["quit"; "exit"; "q"]%string.

(** [run_text_mode] over the lines typed so far: the checkpointer of the
    agent, what has been printed, and whether the loop has ended. *)
Fixpoint run_text_mode (agent : FinancialCoachAgent.t) (memory : MemorySaver)
    (typed : list string) : MemorySaver * list printed * bool :=
  match typed with
  | [] => (memory, [], false)
  | line :: rest =>
      let user_input := FinancialCoachVoiceAgent.strip line in
      if is_quit user_input then (memory, [], true)
      else if negb (truthy user_input) then run_text_mode agent memory rest
      else
        let '(response, memory) :=
          FinancialCoachAgent.chat agent memory user_input None None in
        let out :=
          match response with
          | Return response => coach_says response
          | Raise e => error_says e
          end in
        let '(memory, outs, ended) := run_text_mode agent memory rest in
        (memory, out :: outs, ended)
  end.

End TextMode.

(** * Properties *)

(** ** What the specification's words mean *)

Module Spec.
Import Py Datetime.

(** The earliest and the latest instant among the dates of a non-empty
    transaction list, and the whole days between them. *)
Definition earliest (t0 : Transaction) (ts : list Transaction) : Z :=
  fold_left Z.min (map (fun t => micros (date t)) ts) (micros (date t0)).

Definition latest (t0 : Transaction) (ts : list Transaction) : Z :=
  fold_left Z.max (map (fun t => micros (date t)) ts) (micros (date t0)).

Definition whole_day_span (t0 : Transaction) (ts : list Transaction) : Z :=
  (latest t0 ts - earliest t0 ts) / us_per_day.

(** A message states a number of days when its decimal numeral occurs
    in it. *)
Definition states_days (msg : string) (days : Z) : bool :=
  str_in (str_of_int days) msg.

(** The mean of a list of floats, [0] for the empty list. *)
Definition mean (xs : list float) : float :=
  match xs with
  | [] => 0%float
  | _ :: _ => (sum xs / float_of_int (len xs))%float
  end.

Definition is_income (t : Transaction) : bool := gt (amount t) 0.

(** Scanning a message list from the end backward: the content of the
    first model-authored message with non-empty text, and of the first
    tool-result message. *)
Definition most_recent_ai_text (messages : list BaseMessage)
    : option string :=
  match
    find (fun m => match m with
                   | AIMessage content _ => truthy content
                   | _ => false
                   end) (rev messages)
  with
  | Some (AIMessage content _) => Some content
  | _ => None
  end.

Definition most_recent_tool_result (messages : list BaseMessage)
    : option string :=
  match
    find (fun m => match m with ToolMessage _ => true | _ => false end)
         (rev messages)
  with
  | Some (ToolMessage content) => Some content
  | _ => None
  end.

Definition count_system (messages : list BaseMessage) : nat :=
  List.length (filter FinancialCoachAgent.is_SystemMessage messages).

End Spec.

(** ** Facts about the runtime *)

Section RuntimeFacts.
Import Py.

Lemma prefix_app (s post : string) :
  String.prefix s (s ++ post)%string = true.
Proof.
  induction s as [|c s IH]; simpl.
  - now destruct post.
  - destruct (ascii_dec c c) as [_|n]; [exact IH | now elim n].
Qed.

Lemma str_in_middle (pre s post : string) :
  str_in s (pre ++ s ++ post)%string = true.
Proof.
  assert (here : forall u, str_in s (s ++ u)%string = true).
  { intros u. pose proof (prefix_app s u) as P.
    destruct (s ++ u)%string; cbn [str_in]; now rewrite P. }
  induction pre as [|c pre IH]; cbn [String.append str_in].
  - apply here.
  - rewrite IH. apply orb_true_r.
Qed.

(** A string that occurs in another starts with one of its characters. *)
Fixpoint has_char (c : ascii) (s : string) : bool :=
  match s with
  | EmptyString => false
  | String c' s' => Ascii.eqb c c' || has_char c s'
  end.

Lemma prefix_head (c : ascii) (sub s : string) :
  String.prefix (String c sub) s = true -> has_char c s = true.
Proof.
  destruct s as [|c' s]; simpl; [discriminate|].
  destruct (ascii_dec c c') as [->|]; [|discriminate].
  intros _. now rewrite Ascii.eqb_refl.
Qed.

Lemma str_in_head (c : ascii) (sub s : string) :
  str_in (String c sub) s = true -> has_char c s = true.
Proof.
  induction s as [|c' s IH]; intros H.
  - simpl in H. discriminate.
  - cbn [str_in] in H. apply orb_true_iff in H as [H|H].
    + now apply prefix_head in H.
    + simpl. rewrite (IH H). apply orb_true_r.
Qed.

Definition numeral_head (c : ascii) : bool :=
  has_char c "-0123456789".

Lemma str_of_int_head (n : Z) :
  exists c rest, str_of_int n = String c rest /\ numeral_head c = true.
Proof.
  unfold str_of_int.
  destruct n as [|p|p]; cbn.
  - now eexists _, _.
  - destruct (Pos.to_uint p); cbn; now eexists _, _.
  - now eexists _, _.
Qed.

Lemma max_of_micros d ds :
  Datetime.micros (Datetime.max_of d ds)
  = fold_left Z.max (map Datetime.micros ds) (Datetime.micros d).
Proof.
  unfold Datetime.max_of. revert d.
  induction ds as [|x ds IH]; intros d; simpl; [reflexivity|].
  rewrite IH. f_equal.
  destruct (Z.ltb_spec (Datetime.micros d) (Datetime.micros x)); lia.
Qed.

Lemma min_of_micros d ds :
  Datetime.micros (Datetime.min_of d ds)
  = fold_left Z.min (map Datetime.micros ds) (Datetime.micros d).
Proof.
  unfold Datetime.min_of. revert d.
  induction ds as [|x ds IH]; intros d; simpl; [reflexivity|].
  rewrite IH. f_equal.
  destruct (Z.ltb_spec (Datetime.micros x) (Datetime.micros d)); lia.
Qed.

Lemma span_days_whole_day_span t0 ts :
  FinancialAnalyzer.span_days t0 ts = Spec.whole_day_span t0 ts.
Proof.
  unfold FinancialAnalyzer.span_days, Spec.whole_day_span, Datetime.sub_days,
    Spec.latest, Spec.earliest.
  now rewrite max_of_micros, min_of_micros, map_map.
Qed.

End RuntimeFacts.

(** ** Construction of the analytics engine *)

Section Construction.
Import Py FinancialAnalyzer.

Definition at_midnight (y m d : Z) : Datetime.datetime :=
  Datetime.mk_datetime y m d 0 0 0 0.

Definition txn (d : Datetime.datetime) (a : float)
    (c : TransactionCategory.t) : Transaction :=
  mk_Transaction d a c "" TransactionType.DEBIT None.

(** Two salary deposits 29 days apart, and the same 30 days apart. *)
Definition short_history : list Transaction :=
  [txn (at_midnight 2024 1 1) 2250 TransactionCategory.INCOME;
   txn (at_midnight 2024 1 30) 2250 TransactionCategory.INCOME].

Definition month_history : list Transaction :=
  [txn (at_midnight 2024 1 1) 2250 TransactionCategory.INCOME;
   txn (at_midnight 2024 1 31) 2250 TransactionCategory.INCOME].

Lemma empty_message_has_no_numeral (days : Z) :
  Spec.states_days "No transactions provided." days = false.
Proof.
  unfold Spec.states_days.
  destruct (str_of_int_head days) as (c & rest & -> & Hc).
  destruct (str_in (String c rest) "No transactions provided.") eqn:E;
    [|reflexivity].
  apply str_in_head in E.
  unfold numeral_head in Hc. cbn [has_char] in Hc, E.
  rewrite !orb_false_r in Hc, E.
  repeat (apply orb_true_iff in Hc as [Hc|Hc];
          [apply Ascii.eqb_eq in Hc; subst c; discriminate E|]).
  apply Ascii.eqb_eq in Hc; subst c; discriminate E.
Qed.

(** C1, as stated, fails on the empty list: construction does fail, but
    the message of the error states no span at all, whatever number of
    days one reads as the span of an empty list. *)
Lemma init_empty_states_no_span :
  ~ (exists msg days,
       __init__ [] = Raise (ValueError msg)
       /\ Spec.states_days msg days = true).
Proof.
  intros (msg & days & H & S). cbn in H. injection H as <-.
  now rewrite empty_message_has_no_numeral in S.
Qed.

(** C1, amended.  Construction fails on the empty list with the fixed
    message "No transactions provided."; on a non-empty list whose
    whole-day span between the earliest and the latest date is under 30
    it fails with a message that states that span; on a non-empty list
    whose span is at least 30 days it succeeds, and the analyzer holds
    the list. *)
Theorem init_outcome (txns : list Transaction) :
  (txns = [] ->
     __init__ txns = Raise (ValueError "No transactions provided."))
  /\ (forall t0 ts, txns = t0 :: ts -> Spec.whole_day_span t0 ts < 30 ->
        exists msg,
          __init__ txns = Raise (ValueError msg)
          /\ Spec.states_days msg (Spec.whole_day_span t0 ts) = true)
  /\ (forall t0 ts, txns = t0 :: ts -> 30 <= Spec.whole_day_span t0 ts ->
        __init__ txns = Return (mk txns)).
Proof.
  split; [intros ->; reflexivity|].
  split; intros t0 ts -> Hspan;
    unfold __init__, _validate_data;
    rewrite span_days_whole_day_span.
  - destruct (Z.ltb_spec (Spec.whole_day_span t0 ts) 30); [|lia].
    eexists; split; [reflexivity|].
    unfold Spec.states_days, not_enough_data. apply str_in_middle.
  - destruct (Z.ltb_spec (Spec.whole_day_span t0 ts) 30); [lia|].
    reflexivity.
Qed.

Lemma init_outcome_witness :
  __init__ [] = Raise (ValueError "No transactions provided.")
  /\ (exists msg,
        __init__ short_history = Raise (ValueError msg)
        /\ Spec.states_days msg 29 = true)
  /\ __init__ month_history = Return (mk month_history).
Proof.
  split; [apply (proj1 (init_outcome [])); reflexivity|].
  split.
  - apply (proj1 (proj2 (init_outcome short_history)) _ _ eq_refl).
    vm_compute. reflexivity.
  - apply (proj2 (proj2 (init_outcome month_history)) _ _ eq_refl).
    vm_compute. discriminate.
Defined.

End Construction.

(** ** Income and debt reports *)

Section IncomeAndDebt.
Import Py FinancialAnalyzer.

Lemma init_transactions txns self :
  __init__ txns = Return self -> self = mk txns.
Proof.
  unfold __init__. destruct (_validate_data txns); cbn; congruence.
Qed.

Lemma filter_nil_iff {A} (f : A -> bool) (l : list A) :
  filter f l = [] <-> (forall x, In x l -> f x = false).
Proof.
  induction l as [|a l IH]; cbn; [tauto|].
  destruct (f a) eqn:E; split.
  - discriminate.
  - intros H. specialize (H a (or_introl eq_refl)). congruence.
  - intros H x [<-|Hx]; [exact E | now apply IH].
  - intros H. apply IH. auto.
Qed.

Lemma mean_of_values_mean {K} (d : list (K * float)) :
  mean_of_values d = Spec.mean (values d).
Proof.
  destruct d as [|kv d]; [reflexivity|].
  unfold mean_of_values, Spec.mean, values, len. cbn [map List.length].
  now rewrite length_map.
Qed.

(** Five months of salary and rent, a loan payment in two of them, and
    the same history without any income. *)
Definition salaried_history : list Transaction :=
  [txn (at_midnight 2024 1 1) 2250 TransactionCategory.INCOME;
   txn (at_midnight 2024 1 3) (-1200) TransactionCategory.RENT;
   txn (at_midnight 2024 1 15) 2250 TransactionCategory.INCOME;
   txn (at_midnight 2024 2 3) (-1200) TransactionCategory.RENT;
   txn (at_midnight 2024 2 20) (-300) TransactionCategory.LOAN_PAYMENT;
   txn (at_midnight 2024 3 1) 2250 TransactionCategory.INCOME;
   txn (at_midnight 2024 3 20) (-300) TransactionCategory.LOAN_PAYMENT].

Definition unpaid_history : list Transaction :=
  [txn (at_midnight 2024 1 3) (-1200) TransactionCategory.RENT;
   txn (at_midnight 2024 2 3) (-1200) TransactionCategory.RENT;
   txn (at_midnight 2024 3 3) (-1200) TransactionCategory.RENT].

(** C2.  On an analyzer built from a valid list: with no transaction of
    positive amount every numeric field of the income report is zero;
    otherwise the months covered are the whole-day span of the income
    transactions over 30, at least 1, the monthly average is the total
    income over those months, the average monthly spending is the mean of
    the values of [get_monthly_spending], the savings are their
    difference, and the savings rate is savings over average income times
    100 when the average income is positive and 0 when it is not. *)
Theorem income_summary_spec (txns : list Transaction) (self : t) :
  __init__ txns = Return self ->
  let r := get_income_summary self in
  ((forall x, In x txns -> gt (amount x) 0 = false) ->
     r = IncomeSummary.mk 0 0 0 0 0 0 0)
  /\ ((exists x, In x txns /\ gt (amount x) 0 = true) ->
      exists t0 ts,
        filter Spec.is_income txns = t0 :: ts
        /\ IncomeSummary.months_covered r
           = max2 (float_of_int (Spec.whole_day_span t0 ts) / 30)%float 1
        /\ IncomeSummary.total r = sum (map amount (t0 :: ts))
        /\ IncomeSummary.count r = len (t0 :: ts)
        /\ IncomeSummary.average_monthly r
           = (IncomeSummary.total r / IncomeSummary.months_covered r)%float
        /\ IncomeSummary.average_monthly_spending r
           = Spec.mean (values (get_monthly_spending self))
        /\ IncomeSummary.monthly_savings r
           = (IncomeSummary.average_monthly r
              - IncomeSummary.average_monthly_spending r)%float
        /\ IncomeSummary.savings_rate r
           = if gt (IncomeSummary.average_monthly r) 0
             then (IncomeSummary.monthly_savings r
                   / IncomeSummary.average_monthly r * 100)%float
             else 0%float).
Proof.
  intros Hinit. apply init_transactions in Hinit. subst self.
  cbv zeta. unfold get_income_summary. cbn [transactions].
  change (fun t : Transaction => gt (amount t) 0) with Spec.is_income.
  split.
  - intros Hno. apply (filter_nil_iff Spec.is_income) in Hno.
    rewrite Hno. reflexivity.
  - intros (x & Hin & Hpos).
    destruct (filter Spec.is_income txns) as [|t0 ts] eqn:E.
    + apply (proj1 (filter_nil_iff Spec.is_income txns)) with (x := x) in E;
        [unfold Spec.is_income in E; congruence | exact Hin].
    + exists t0, ts. cbn [IncomeSummary.months_covered IncomeSummary.total
        IncomeSummary.count IncomeSummary.average_monthly
        IncomeSummary.average_monthly_spending IncomeSummary.monthly_savings
        IncomeSummary.savings_rate].
      rewrite span_days_whole_day_span, mean_of_values_mean.
      repeat split; reflexivity.
Qed.

Lemma income_summary_spec_witness :
  get_income_summary (mk unpaid_history) = IncomeSummary.mk 0 0 0 0 0 0 0
  /\ IncomeSummary.average_monthly (get_income_summary (mk salaried_history))
     = 3375%float.
Proof.
  pose proof (income_summary_spec unpaid_history (mk unpaid_history)
                eq_refl) as [Hzero _].
  pose proof (income_summary_spec salaried_history (mk salaried_history)
                eq_refl) as [_ Hsome].
  split.
  - apply Hzero. intros x Hx. cbn in Hx.
    repeat (destruct Hx as [<-|Hx]; [reflexivity|]). destruct Hx.
  - destruct Hsome as (t0 & ts & E & Hm & Ht & _ & Ha & _).
    + eexists. split; [left; reflexivity | reflexivity].
    + cbv zeta in Ha. rewrite Ha, Hm, Ht.
      vm_compute in E. injection E as <- <-. reflexivity.
Defined.

(** C3.  On an analyzer built from a valid list the strategies of the
    debt report are non-empty exactly when the average monthly debt is
    positive; when non-empty they are "debt_snowball" then
    "debt_avalanche", each allocating the average monthly debt plus
    [max(0, monthly_savings * 0.5)], the savings being those of the income
    report; and a list without debt-category transactions has no
    strategies and zero total debt payments. *)
Theorem debt_strategies_spec (txns : list Transaction) (self : t) :
  __init__ txns = Return self ->
  let r := get_debt_analysis self in
  let allocation :=
    (DebtAnalysis.average_monthly_debt r
     + max2 0 (IncomeSummary.monthly_savings (get_income_summary self) * 0.5))%float in
  (DebtAnalysis.strategies r <> []
     <-> gt (DebtAnalysis.average_monthly_debt r) 0 = true)
  /\ (DebtAnalysis.strategies r <> [] ->
        map Strategy.strategy (DebtAnalysis.strategies r)
          = ["debt_snowball"; "debt_avalanche"]%string
        /\ Forall (fun s => Strategy.monthly_allocation s = allocation)
                  (DebtAnalysis.strategies r))
  /\ ((forall x, In x txns -> in_debt_categories (category x) = false) ->
        DebtAnalysis.strategies r = []
        /\ DebtAnalysis.total_debt_payments r = 0%float).
Proof.
  intros Hinit. apply init_transactions in Hinit. subst self.
  cbv zeta. unfold get_debt_analysis.
  cbn [transactions DebtAnalysis.strategies DebtAnalysis.average_monthly_debt
       DebtAnalysis.total_debt_payments].
  set (debt_txns := filter _ txns).
  set (avg := mean_of_values _).
  repeat split.
  - destruct (gt avg 0); [reflexivity | congruence].
  - destruct (gt avg 0); [discriminate | congruence].
  - destruct (gt avg 0); [reflexivity | congruence].
  - destruct (gt avg 0); [|congruence].
    repeat constructor.
  - subst avg.
    replace debt_txns with (@nil Transaction); [reflexivity|].
    symmetry. now apply filter_nil_iff.
  - replace debt_txns with (@nil Transaction); [reflexivity|].
    symmetry. now apply filter_nil_iff.
Qed.

Lemma debt_strategies_spec_witness :
  Forall (fun s => Strategy.monthly_allocation s = 1487.5%float)
         (DebtAnalysis.strategies (get_debt_analysis (mk salaried_history)))
  /\ DebtAnalysis.strategies (get_debt_analysis (mk unpaid_history)) = [].
Proof.
  pose proof (debt_strategies_spec salaried_history (mk salaried_history)
                eq_refl) as (Hiff & Hsome & _).
  pose proof (debt_strategies_spec unpaid_history (mk unpaid_history)
                eq_refl) as (_ & _ & Hnone).
  split.
  - cbv zeta in Hiff, Hsome.
    destruct (Hsome (proj2 Hiff eq_refl)) as [_ Hall].
    exact Hall.
  - apply Hnone. intros x Hx. cbn in Hx.
    repeat (destruct Hx as [<-|Hx]; [reflexivity|]). destruct Hx.
Defined.

End IncomeAndDebt.

(** ** Dictionaries filled by [+=] *)

Section DictFacts.
Import Py.
Context {K T : Type} (eqb : K -> K -> bool).
Hypothesis eqb_eq : forall a b, eqb a b = true <-> a = b.
Variables (key : T -> K) (val : T -> float).

Lemma eqb_same a : eqb a a = true.
Proof. now apply eqb_eq. Qed.

Lemma eqb_other a b : a <> b -> eqb a b = false.
Proof.
  intros N. destruct (eqb a b) eqn:E; [|reflexivity].
  now apply eqb_eq in E.
Qed.

Lemma get_iadd_same (d : list (K * float)) k v :
  get eqb (iadd eqb d k v) k
  = Some (match get eqb d k with Some w => w | None => 0 end + v)%float.
Proof.
  induction d as [|[k' w] d IH]; cbn [iadd get].
  - now rewrite eqb_same.
  - destruct (eqb k k') eqn:E; cbn [get]; rewrite E; [reflexivity | exact IH].
Qed.

Lemma get_iadd_other (d : list (K * float)) k k' v :
  k' <> k -> get eqb (iadd eqb d k v) k' = get eqb d k'.
Proof.
  intros N. induction d as [|[k0 w] d IH]; cbn [iadd get].
  - now rewrite eqb_other.
  - destruct (eqb k k0) eqn:E; cbn [get].
    + apply eqb_eq in E. subst k0. now rewrite eqb_other.
    + now rewrite IH.
Qed.

(** The entry of a key after a loop of [d[key(t)] += val(t)]: the values
    of the items with that key, added in order to what was there. *)
Lemma get_fold_iadd (l : list T) (d : list (K * float)) k :
  get eqb (fold_left (fun d t => iadd eqb d (key t) (val t)) l d) k
  = match filter (fun t => eqb (key t) k) l with
    | [] => get eqb d k
    | picked =>
        Some (fold_left PrimFloat.add (map val picked)
                (match get eqb d k with Some w => w | None => 0%float end))
    end.
Proof.
  revert d. induction l as [|t l IH]; intros d; cbn [fold_left filter].
  - reflexivity.
  - rewrite IH. destruct (eqb (key t) k) eqn:E.
    + apply eqb_eq in E. subst k. rewrite get_iadd_same.
      destruct (filter _ l); reflexivity.
    + rewrite get_iadd_other; [reflexivity|].
      intros ->. now rewrite eqb_same in E.
Qed.

Lemma keys_iadd_in (d : list (K * float)) k v k' :
  In k' (keys (iadd eqb d k v)) <-> k' = k \/ In k' (keys d).
Proof.
  unfold keys. induction d as [|[k0 w] d IH]; cbn [iadd map In fst].
  - intuition congruence.
  - destruct (eqb k k0) eqn:E; cbn [map In fst].
    + apply eqb_eq in E. subst k0. intuition congruence.
    + rewrite IH. tauto.
Qed.

Lemma keys_iadd_NoDup (d : list (K * float)) k v :
  NoDup (keys d) -> NoDup (keys (iadd eqb d k v)).
Proof.
  unfold keys. induction d as [|[k0 w] d IH]; cbn [iadd map fst]; intros ND.
  - repeat constructor. intros [].
  - destruct (eqb k k0) eqn:E; cbn [map fst]; [exact ND|].
    inversion ND as [|? ? Hnot ND']; subst. constructor; [|now apply IH].
    intros Hin. apply keys_iadd_in in Hin as [->|Hin]; [|now apply Hnot].
    now rewrite eqb_same in E.
Qed.

Lemma contains_get (d : list (K * float)) k :
  contains eqb d k = true <-> In k (keys d).
Proof.
  unfold contains, keys. induction d as [|[k0 w] d IH]; cbn [get map In fst].
  - split; [discriminate | tauto].
  - destruct (eqb k k0) eqn:E.
    + apply eqb_eq in E. subst k0. tauto.
    + rewrite IH. split; [tauto|]. intros [->|H]; [|exact H].
      now rewrite eqb_same in E.
Qed.

End DictFacts.

Lemma category_eqb_eq a b : TransactionCategory.eqb a b = true <-> a = b.
Proof.
  split; [|intros ->; apply String.eqb_refl].
  destruct a, b; intros H; try reflexivity; discriminate H.
Qed.

(** A loop that skips the items failing a test is the loop over the items
    that pass it. *)
Lemma fold_left_guard {A B} (p : B -> bool) (f : A -> B -> A) l a :
  fold_left (fun a x => if p x then f a x else a) l a
  = fold_left f (filter p l) a.
Proof.
  revert a. induction l as [|x l IH]; intros a; cbn [fold_left filter].
  - reflexivity.
  - rewrite IH. now destruct (p x).
Qed.

(** ** Debt payments are selected by category *)

Section DebtSelection.
Import Py FinancialAnalyzer.

Definition in_month (k : string) (x : Transaction) : bool :=
  String.eqb (Datetime.strftime_Y_m (date x)) k.

Definition paid (x : Transaction) : float := PrimFloat.abs (amount x).

(** Loan and card payments booked with either sign. *)
Definition refunded_history : list Transaction :=
  [txn (at_midnight 2024 1 1) 300 TransactionCategory.LOAN_PAYMENT;
   txn (at_midnight 2024 1 20) 50 TransactionCategory.CREDIT_CARD_PAYMENT;
   txn (at_midnight 2024 2 15) (-200) TransactionCategory.LOAN_PAYMENT;
   txn (at_midnight 2024 2 16) (-75) TransactionCategory.GROCERIES].

Lemma in_debt_categories_In c :
  in_debt_categories c = true <-> In c debt_categories.
Proof.
  unfold in_debt_categories. rewrite existsb_exists. split.
  - intros (c' & Hin & E). apply category_eqb_eq in E. now subst.
  - intros Hin. exists c. split; [exact Hin | now apply category_eqb_eq].
Qed.

(** C10.  On an analyzer built from a valid list the debt report selects
    the transactions whose category is a debt category, whatever the sign
    of their amount: each of them is selected, the total is the sum of the
    absolute amounts of the selected ones, and the entry of a month in the
    breakdown is the sum of the absolute amounts of the selected ones of
    that month (no entry when there is none). *)
Theorem debt_selection_ignores_sign (txns : list Transaction) (self : t) :
  __init__ txns = Return self ->
  let r := get_debt_analysis self in
  let selected := filter (fun x => in_debt_categories (category x)) txns in
  (forall x, In x txns ->
     In (category x) [TransactionCategory.LOAN_PAYMENT;
                      TransactionCategory.DEBT_PAYMENT;
                      TransactionCategory.CREDIT_CARD_PAYMENT] ->
     In x selected)
  /\ DebtAnalysis.total_debt_payments r = sum (map paid selected)
  /\ DebtAnalysis.debt_transaction_count r = len selected
  /\ (forall k,
        get String.eqb (DebtAnalysis.monthly_breakdown r) k
        = match filter (in_month k) selected with
          | [] => None
          | picked => Some (sum (map paid picked))
          end).
Proof.
  intros Hinit. apply init_transactions in Hinit. subst self.
  cbv zeta. unfold get_debt_analysis.
  cbn [transactions DebtAnalysis.total_debt_payments
       DebtAnalysis.debt_transaction_count DebtAnalysis.monthly_breakdown].
  repeat split.
  - intros x Hin Hcat. apply filter_In. split; [exact Hin|].
    now apply in_debt_categories_In.
  - intros k.
    rewrite (get_fold_iadd String.eqb String.eqb_eq
               (fun x => Datetime.strftime_Y_m (date x)) paid).
    reflexivity.
Qed.

Lemma debt_selection_ignores_sign_witness :
  DebtAnalysis.total_debt_payments (get_debt_analysis (mk refunded_history))
    = 550%float
  /\ get String.eqb
       (DebtAnalysis.monthly_breakdown (get_debt_analysis (mk refunded_history)))
       "2024-01"%string
     = Some 350%float.
Proof.
  pose proof (debt_selection_ignores_sign refunded_history
                (mk refunded_history) eq_refl) as (_ & Htotal & _ & Hmonth).
  cbv zeta in Htotal, Hmonth. split.
  - rewrite Htotal. reflexivity.
  - rewrite Hmonth. reflexivity.
Defined.

End DebtSelection.

(** ** Category totals *)

Section CategoryTotals.
Import Py FinancialAnalyzer.

Definition is_expense (x : Transaction) : bool := PrimFloat.ltb (amount x) 0.

Definition of_category (c : TransactionCategory.t) (x : Transaction) : bool :=
  TransactionCategory.eqb (category x) c.

(** The category has at least one expense. *)
Definition has_expense (c : TransactionCategory.t) (txns : list Transaction)
    : bool :=
  existsb (fun x => is_expense x && of_category c x) txns.

Lemma spending_as_fold self :
  get_spending_by_category self
  = fold_left (fun d x => iadd TransactionCategory.eqb d (category x) (paid x))
              (filter is_expense (transactions self)) [].
Proof.
  unfold get_spending_by_category.
  apply (fold_left_guard is_expense
           (fun d x => iadd TransactionCategory.eqb d (category x) (paid x))).
Qed.

(** What the report holds for a category: the absolute amounts of its
    expenses, added in order; nothing when it has no expense. *)
Lemma spending_entry self c :
  get TransactionCategory.eqb (get_spending_by_category self) c
  = match filter (of_category c) (filter is_expense (transactions self)) with
    | [] => None
    | picked => Some (sum (map paid picked))
    end.
Proof.
  rewrite spending_as_fold.
  now rewrite (get_fold_iadd TransactionCategory.eqb category_eqb_eq
                 category paid).
Qed.

Lemma existsb_filter {A} (p q : A -> bool) l :
  existsb (fun x => p x && q x) l
  = match filter q (filter p l) with [] => false | _ :: _ => true end.
Proof.
  induction l as [|x l IH]; cbn [existsb filter]; [reflexivity|].
  destruct (p x); cbn [andb orb filter]; [|exact IH].
  destruct (q x); cbn [orb]; [reflexivity | exact IH].
Qed.

Lemma spending_contains self c :
  contains TransactionCategory.eqb (get_spending_by_category self) c
  = has_expense c (transactions self).
Proof.
  unfold contains, has_expense. rewrite spending_entry, existsb_filter.
  now destruct (filter (of_category c) _).
Qed.

(** The spending total of a category, in the specification's words: the
    sum of the absolute amounts of its expenses, 0 when it has none. *)
Definition category_total (c : TransactionCategory.t)
    (txns : list Transaction) : float :=
  match filter (of_category c) (filter is_expense txns) with
  | [] => 0%float
  | picked => sum (map paid picked)
  end.

Lemma get_or_zero_category_total self c :
  get_or_zero (get_spending_by_category self) c
  = category_total c (transactions self).
Proof.
  unfold get_or_zero, category_total. rewrite spending_entry.
  now destruct (filter (of_category c) _).
Qed.

Lemma income_summary_without_income self :
  (forall x, In x (transactions self) -> gt (amount x) 0 = false) ->
  get_income_summary self = no_income.
Proof.
  intros Hno. unfold get_income_summary.
  now rewrite (proj2 (filter_nil_iff _ _) Hno).
Qed.

End CategoryTotals.

(** ** Budget recommendations *)

Section Budget.
Import Py FinancialAnalyzer.

(** [category.value.replace("_", " ").title()]. *)
Definition display_name (c : TransactionCategory.t) : string :=
  title (replace_char "_" " " (TransactionCategory.value c)).

Section Targets.
Variables (avg_income months : float).
Variable spending : list (TransactionCategory.t * float).

Definition recommended (pct : Z) : float :=
  if gt avg_income 0 then (avg_income * float_of_int pct / 100)%float
  else 0%float.

Definition actual (c : TransactionCategory.t) : float :=
  (get_or_zero spending c / months)%float.

Definition flagged (target : TransactionCategory.t * Z) : bool :=
  gt (actual (fst target)) (recommended (snd target) * 1.2)%float.

Definition entry (target : TransactionCategory.t * Z) : Recommendation.t :=
  Recommendation.mk (display_name (fst target)) (recommended (snd target))
                    (actual (fst target)).

End Targets.

Lemma display_name_targets t1 t2 :
  In t1 targets -> In t2 targets ->
  display_name (fst t1) = display_name (fst t2) -> t1 = t2.
Proof.
  unfold targets. cbn [In]. intros H1 H2 E.
  repeat (destruct H1 as [<-|H1]); try contradiction;
    repeat (destruct H2 as [<-|H2]); try contradiction;
    try reflexivity; vm_compute in E; discriminate E.
Qed.

Lemma months_of_valid txns self :
  __init__ txns = Return self ->
  exists t0 ts,
    txns = t0 :: ts
    /\ _months self
       = Return (max2 (float_of_int (Spec.whole_day_span t0 ts) / 30)%float 1).
Proof.
  intros Hinit. pose proof (init_transactions _ _ Hinit) as ->.
  destruct txns as [|t0 ts]; [discriminate Hinit|].
  exists t0, ts. split; [reflexivity|].
  unfold _months. cbn [transactions].
  now rewrite span_days_whole_day_span.
Qed.

(** Six months of salary, with a rent far above its target. *)
Definition renter_history : list Transaction :=
  [txn (at_midnight 2024 1 1) 3000 TransactionCategory.INCOME;
   txn (at_midnight 2024 1 2) (-2000) TransactionCategory.RENT;
   txn (at_midnight 2024 1 9) (-200) TransactionCategory.GROCERIES;
   txn (at_midnight 2024 1 31) 3000 TransactionCategory.INCOME;
   txn (at_midnight 2024 2 1) (-2000) TransactionCategory.RENT;
   txn (at_midnight 2024 3 1) 3000 TransactionCategory.INCOME].

(** C4.  On an analyzer built from a valid list the budget report goes
    through the six targets rent 30, groceries 10, fuel 5, utilities 5,
    dining 5 and shopping 5 in that order; a target's recommended amount
    is the average monthly income times its percentage over 100, and 0
    without income; its actual amount is the category's spending total
    over the months of the whole history; the recommendations are the
    targets whose actual amount exceeds 1.2 times the recommended one, in
    target order, so a category is listed exactly when it does; and the
    total recommended budget is the sum of the six recommended amounts,
    flagged or not. *)
Theorem budget_recommendations_spec (txns : list Transaction) (self : t) :
  __init__ txns = Return self ->
  exists t0 ts months r,
    txns = t0 :: ts
    /\ months = max2 (float_of_int (Spec.whole_day_span t0 ts) / 30)%float 1
    /\ get_budget_recommendations self = Return r
    /\ targets = [(TransactionCategory.RENT, 30);
                  (TransactionCategory.GROCERIES, 10);
                  (TransactionCategory.FUEL, 5);
                  (TransactionCategory.UTILITIES, 5);
                  (TransactionCategory.DINING, 5);
                  (TransactionCategory.SHOPPING, 5)]
    /\ let avg_income :=
         IncomeSummary.average_monthly (get_income_summary self) in
       let spending := get_spending_by_category self in
       BudgetRecommendations.recommendations r
         = map (entry avg_income months spending)
               (filter (flagged avg_income months spending) targets)
       /\ (forall target, In target targets ->
             (exists e, In e (BudgetRecommendations.recommendations r)
                        /\ Recommendation.category e
                           = display_name (fst target))
             <-> gt (actual months spending (fst target))
                    (recommended avg_income (snd target) * 1.2)%float = true)
       /\ BudgetRecommendations.total_recommended_budget r
          = sum (map (fun target => recommended avg_income (snd target))
                     targets)
       /\ ((forall x, In x txns -> gt (amount x) 0 = false) ->
           forall pct, recommended avg_income pct = 0%float)
       /\ (forall c,
             actual months spending c = (category_total c txns / months)%float).
Proof.
  intros Hinit.
  destruct (months_of_valid _ _ Hinit) as (t0 & ts & Htx & Hmonths).
  pose proof (init_transactions _ _ Hinit) as Hself.
  set (months := max2 _ 1) in Hmonths.
  set (avg_income := IncomeSummary.average_monthly (get_income_summary self)).
  set (spending := get_spending_by_category self).
  assert (Hloop : forall l recs tot,
    fold_left
      (fun acc target =>
         let '(recommendations, total_recommended) := acc in
         let '(category, pct) := target in
         let recommended :=
           if gt avg_income 0
           then (avg_income * float_of_int pct / float_of_int 100)%float
           else 0%float in
         let actual := (get_or_zero spending category / months)%float in
         let total_recommended := (total_recommended + recommended)%float in
         if gt actual (recommended * 1.2)%float
         then
           let cat_name :=
             title (replace_char "_" " " (TransactionCategory.value category)) in
           (recommendations ++ [Recommendation.mk cat_name recommended actual],
            total_recommended)
         else (recommendations, total_recommended))
      l (recs, tot)
    = (recs ++ map (entry avg_income months spending)
                   (filter (flagged avg_income months spending) l),
       fold_left PrimFloat.add
         (map (fun target => recommended avg_income (snd target)) l) tot)).
  { induction l as [|[c pct] l IH]; intros recs tot;
      cbn [fold_left filter map].
    - now rewrite app_nil_r.
    - change (flagged avg_income months spending (c, pct))
        with (gt (get_or_zero spending c / months)%float
                 ((if gt avg_income 0
                   then (avg_income * float_of_int pct / float_of_int 100)%float
                   else 0%float) * 1.2)%float).
      destruct (gt (get_or_zero spending c / months)%float _) eqn:E;
        rewrite IH; cbn [map snd]; [rewrite <- app_assoc|]; reflexivity. }
  eexists t0, ts, months, _. split; [exact Htx|]. split; [reflexivity|].
  split.
  { unfold get_budget_recommendations. rewrite Hmonths. cbn [bind].
    fold avg_income spending. rewrite Hloop. reflexivity. }
  split; [reflexivity|].
  cbn [BudgetRecommendations.recommendations
       BudgetRecommendations.total_recommended_budget app].
  split; [reflexivity|]. split; [|split; [reflexivity|split]].
  - intros target Hin. split.
    + intros (e & He & Hname).
      apply in_map_iff in He as (target' & <- & Hf).
      apply filter_In in Hf as [Hin' Hf].
      cbn [entry Recommendation.category] in Hname.
      now rewrite <- (display_name_targets _ _ Hin' Hin Hname).
    + intros Hf. exists (entry avg_income months spending target).
      split; [|reflexivity].
      apply in_map, filter_In. split; [exact Hin | exact Hf].
  - intros Hno pct. unfold recommended. subst avg_income.
    rewrite income_summary_without_income; [reflexivity|].
    rewrite Hself. exact Hno.
  - intros c. unfold actual. subst spending.
    rewrite get_or_zero_category_total. now rewrite Hself.
Qed.

Lemma budget_recommendations_spec_witness :
  exists r,
    get_budget_recommendations (mk renter_history) = Return r
    /\ map Recommendation.category (BudgetRecommendations.recommendations r)
       = ["Rent"%string]
    /\ BudgetRecommendations.total_recommended_budget r = 2700%float.
Proof.
  destruct (budget_recommendations_spec renter_history (mk renter_history)
              eq_refl)
    as (t0 & ts & months & r & Htx & Hm & Hr & _ & Hrecs & _ & Htotal & _ & _).
  injection Htx as <- <-. exists r. split; [exact Hr|].
  rewrite Hrecs, Htotal, Hm. split; vm_compute; reflexivity.
Defined.

End Budget.

(** ** Floats that are sums of absolute values *)

Section NonNegativeFloats.

(** [0 <= x]: neither negative nor a NaN. *)
Definition nonneg (x : float) : bool := PrimFloat.leb 0 x.

Definition sf_nonneg (s : spec_float) : bool :=
  match s with
  | S754_zero _ | S754_infinity false | S754_finite false _ _ => true
  | _ => false
  end.

Lemma nonneg_sf x : nonneg x = sf_nonneg (Prim2SF x).
Proof.
  unfold nonneg. rewrite FloatAxioms.leb_spec.
  change (Prim2SF 0) with (S754_zero false).
  now destruct (Prim2SF x) as [[]|[]| |[] ? ?].
Qed.

Lemma iter_pos_invariant {A} (P : A -> Prop) (f : A -> A) :
  (forall x, P x -> P (f x)) ->
  forall p x, P x -> P (iter_pos f p x).
Proof.
  intros Hf. induction p as [p IH|p IH|]; intros x Hx; cbn [iter_pos]; auto.
Qed.

Lemma shr_1_nonneg mrs : 0 <= shr_m mrs -> 0 <= shr_m (shr_1 mrs).
Proof.
  destruct mrs as [m r s]. destruct m as [|[p|p|]|[p|p|]]; cbn; lia.
Qed.

Lemma shr_nonneg mrs e n : 0 <= shr_m mrs -> 0 <= shr_m (fst (shr mrs e n)).
Proof.
  intros H. destruct n; cbn [shr fst]; try exact H.
  now apply (iter_pos_invariant (fun r => 0 <= shr_m r) _ shr_1_nonneg).
Qed.

Section Rounding.
Variables prec emax : Z.

Lemma shr_fexp_nonneg m e l :
  0 <= m -> 0 <= shr_m (fst (shr_fexp prec emax m e l)).
Proof.
  intros H. unfold shr_fexp. apply shr_nonneg.
  now destruct l as [|[]].
Qed.

Lemma round_nearest_even_nonneg m l : 0 <= m -> 0 <= round_nearest_even m l.
Proof.
  intros H. destruct l as [|[]]; cbn [round_nearest_even];
    try destruct (Z.even m); lia.
Qed.

Lemma binary_round_aux_nonneg m e l :
  0 <= m -> sf_nonneg (binary_round_aux prec emax false m e l) = true.
Proof.
  intros H. unfold binary_round_aux.
  pose proof (shr_fexp_nonneg m e l H) as H1.
  destruct (shr_fexp prec emax m e l) as [mrs' e'].
  cbn [fst] in H1.
  pose proof (shr_fexp_nonneg _ e' loc_Exact
                (round_nearest_even_nonneg _ (loc_of_shr_record mrs') H1))
    as H2.
  destruct (shr_fexp prec emax _ e' loc_Exact) as [mrs'' e''].
  cbn [fst] in H2.
  destruct (shr_m mrs''); [reflexivity | | lia].
  now destruct (e'' <=? emax - prec).
Qed.

Lemma SFadd_nonneg s1 s2 :
  sf_nonneg s1 = true -> sf_nonneg s2 = true ->
  sf_nonneg (SFadd prec emax s1 s2) = true.
Proof.
  destruct s1 as [[]|[]| |[] m1 e1], s2 as [[]|[]| |[] m2 e2];
    cbn [sf_nonneg SFadd]; try discriminate; try reflexivity.
  intros _ _. cbn [cond_Zopp Z.add binary_normalize]. unfold binary_round.
  destruct (shl_align _ _ _). now apply binary_round_aux_nonneg.
Qed.

End Rounding.

Lemma nonneg_zero : nonneg 0 = true.
Proof. reflexivity. Qed.

Lemma nonneg_add x y :
  nonneg x = true -> nonneg y = true -> nonneg (x + y) = true.
Proof.
  rewrite !nonneg_sf, FloatAxioms.add_spec. apply SFadd_nonneg.
Qed.

Lemma nonneg_abs_of_negative a :
  PrimFloat.ltb a 0 = true -> nonneg (PrimFloat.abs a) = true.
Proof.
  rewrite nonneg_sf, FloatAxioms.abs_spec, FloatAxioms.ltb_spec.
  change (Prim2SF 0) with (S754_zero false).
  now destruct (Prim2SF a) as [[]|[]| |[] ? ?].
Qed.

Ltac compare_cases :=
  repeat match goal with
  | H : context [Z.compare ?a ?b] |- _ =>
      destruct (Z.compare_spec a b); cbn in H
  | H : context [Pos.compare_cont Eq ?a ?b] |- _ =>
      change (Pos.compare_cont Eq a b) with (Pos.compare a b) in H;
      destruct (Pos.compare_spec a b); cbn in H
  | |- context [Z.compare ?a ?b] => destruct (Z.compare_spec a b); cbn
  | |- context [Pos.compare_cont Eq ?a ?b] =>
      change (Pos.compare_cont Eq a b) with (Pos.compare a b);
      destruct (Pos.compare_spec a b); cbn
  end.

Lemma SFltb_asym s1 s2 :
  sf_nonneg s1 = true -> sf_nonneg s2 = true ->
  SFltb s1 s2 = true -> SFltb s2 s1 = false.
Proof.
  unfold SFltb.
  destruct s1 as [[]|[]| |[] m1 e1], s2 as [[]|[]| |[] m2 e2];
    cbn [sf_nonneg SFcompare]; try discriminate; try reflexivity;
    intros _ _ H; compare_cases;
    try discriminate; try reflexivity; subst; lia.
Qed.

Lemma SFltb_between s1 s2 s3 :
  sf_nonneg s1 = true -> sf_nonneg s2 = true -> sf_nonneg s3 = true ->
  SFltb s1 s2 = false -> SFltb s2 s3 = false -> SFltb s1 s3 = false.
Proof.
  unfold SFltb.
  destruct s1 as [[]|[]| |[] m1 e1], s2 as [[]|[]| |[] m2 e2],
    s3 as [[]|[]| |[] m3 e3];
    cbn [sf_nonneg SFcompare]; try discriminate; try reflexivity;
    intros _ _ _ H12 H23; compare_cases;
    try discriminate; try reflexivity; subst; lia.
Qed.

(** On non-negative floats [<] is asymmetric, and what is below neither of
    two neighbours in a chain is not below the far one. *)
Lemma ltb_asym x y :
  nonneg x = true -> nonneg y = true ->
  PrimFloat.ltb x y = true -> PrimFloat.ltb y x = false.
Proof.
  rewrite !nonneg_sf, !FloatAxioms.ltb_spec. apply SFltb_asym.
Qed.

Lemma ltb_between x y z :
  nonneg x = true -> nonneg y = true -> nonneg z = true ->
  PrimFloat.ltb x y = false -> PrimFloat.ltb y z = false ->
  PrimFloat.ltb x z = false.
Proof.
  rewrite !nonneg_sf, !FloatAxioms.ltb_spec. apply SFltb_between.
Qed.

End NonNegativeFloats.

(** ** Ranking by value *)

Section Ranking.
Import Py.
Context {K : Type}.

(** [a] may stand before [b] in a descending list: its value is not below
    the value of [b]. *)
Definition not_below (a b : K * float) : Prop :=
  PrimFloat.ltb (snd a) (snd b) = false.

Definition nonneg_value (a : K * float) : Prop := nonneg (snd a) = true.

Lemma insert_desc_perm (x : K * float) l :
  Permutation (insert_desc x l) (x :: l).
Proof.
  induction l as [|y l IH]; cbn [insert_desc]; [reflexivity|].
  destruct (PrimFloat.ltb (snd x) (snd y)); [|reflexivity].
  rewrite IH. apply perm_swap.
Qed.

Lemma sorted_by_value_desc_perm (items : list (K * float)) :
  Permutation (sorted_by_value_desc items) items.
Proof.
  induction items as [|x items IH]; cbn; [constructor|].
  rewrite insert_desc_perm. now constructor.
Qed.

Lemma insert_desc_Forall (P : K * float -> Prop) x l :
  P x -> Forall P l -> Forall P (insert_desc x l).
Proof.
  intros Hx Hl.
  eapply Permutation_Forall; [symmetry; apply insert_desc_perm|].
  now constructor.
Qed.

Lemma insert_desc_sorted x l :
  nonneg_value x -> Forall nonneg_value l ->
  StronglySorted not_below l -> StronglySorted not_below (insert_desc x l).
Proof.
  intros Hx. induction l as [|y l IH]; intros Hl Hs; cbn [insert_desc].
  - repeat constructor.
  - inversion Hl as [|? ? Hy Hl']; subst.
    inversion Hs as [|? ? Hs' Hy_l]; subst.
    destruct (PrimFloat.ltb (snd x) (snd y)) eqn:E.
    + constructor; [now apply IH|].
      apply insert_desc_Forall; [|exact Hy_l].
      now apply ltb_asym.
    + constructor; [exact Hs|]. constructor; [exact E|].
      rewrite Forall_forall in *. intros z Hz.
      apply (ltb_between _ (snd y)); [exact Hx | exact Hy | | exact E |].
      * now apply Hl'.
      * now apply Hy_l.
Qed.

Lemma sorted_by_value_desc_sorted (items : list (K * float)) :
  Forall nonneg_value items ->
  StronglySorted not_below (sorted_by_value_desc items).
Proof.
  induction items as [|x items IH]; intros H; cbn; [constructor|].
  inversion H; subst. apply insert_desc_sorted; auto.
  eapply Permutation_Forall; [symmetry; apply sorted_by_value_desc_perm|].
  assumption.
Qed.

Lemma StronglySorted_filter {A} (R : A -> A -> Prop) (p : A -> bool) l :
  StronglySorted R l -> StronglySorted R (filter p l).
Proof.
  induction 1 as [|a l Hs IH Ha]; cbn [filter]; [constructor|].
  destruct (p a); [|exact IH]. constructor; [exact IH|].
  rewrite Forall_forall in *. intros x Hx. apply Ha.
  now apply filter_In in Hx.
Qed.

Variable eqb : K -> K -> bool.

Lemma iadd_nonneg (d : list (K * float)) k v :
  nonneg v = true -> Forall nonneg_value d ->
  Forall nonneg_value (iadd eqb d k v).
Proof.
  intros Hv. induction d as [|[k' w] d IH]; intros Hd; cbn [iadd].
  - repeat constructor. now apply nonneg_add.
  - inversion Hd as [|? ? Hw Hd']; subst.
    destruct (eqb k k'); constructor; auto.
    now apply nonneg_add.
Qed.

End Ranking.

(** ** Spending patterns *)

Section SpendingPatterns.
Import Py FinancialAnalyzer.

Lemma fold_invariant {A B} (P : A -> Prop) (Q : B -> Prop) (f : A -> B -> A) :
  (forall a x, P a -> Q x -> P (f a x)) ->
  forall l a, P a -> Forall Q l -> P (fold_left f l a).
Proof.
  intros Hf. induction l as [|x l IH]; intros a Ha Hl; cbn [fold_left].
  - exact Ha.
  - inversion Hl; subst. apply IH; auto.
Qed.

Lemma spending_nonneg self :
  Forall nonneg_value (get_spending_by_category self).
Proof.
  rewrite spending_as_fold.
  apply (fold_invariant (Forall nonneg_value)
           (fun x => is_expense x = true)).
  - intros d x Hd Hx. apply iadd_nonneg; [|exact Hd].
    now apply nonneg_abs_of_negative.
  - constructor.
  - apply Forall_forall. intros x Hx. now apply filter_In in Hx.
Qed.

Lemma spending_keys_NoDup self :
  NoDup (map fst (get_spending_by_category self)).
Proof.
  rewrite spending_as_fold.
  apply (fold_invariant (fun d => NoDup (keys d)) (fun _ => True)).
  - intros d x Hd _.
    now apply (keys_iadd_NoDup TransactionCategory.eqb category_eqb_eq).
  - constructor.
  - apply Forall_forall. trivial.
Qed.

Lemma high_loop (avg_monthly months : float)
    (l : list (TransactionCategory.t * float)) (patterns : list Pattern.t) :
  fold_left
    (fun patterns item =>
       let '(category, total) := item in
       let monthly_avg := (total / months)%float in
       if gt monthly_avg (avg_monthly * 0.3)%float
       then patterns ++ [Pattern.high_spending category monthly_avg]
       else patterns)
    l patterns
  = patterns
    ++ map (fun item => Pattern.high_spending (fst item) (snd item / months)%float)
           (filter (fun item => gt (snd item / months) (avg_monthly * 0.3)%float)
                   l).
Proof.
  revert patterns.
  induction l as [|[c total] l IH]; intros patterns;
    cbn [fold_left filter map fst snd].
  - now rewrite app_nil_r.
  - rewrite IH. destruct (gt (total / months) (avg_monthly * 0.3)%float).
    + cbn [map fst snd]. now rewrite <- app_assoc.
    + reflexivity.
Qed.

End SpendingPatterns.

Section SpendingPatternsSpec.
Import Py FinancialAnalyzer.

Lemma NoDup_map_filter {A B} (f : A -> B) (p : A -> bool) l :
  NoDup (map f l) -> NoDup (map f (filter p l)).
Proof.
  induction l as [|a l IH]; cbn [map filter]; intros H; [constructor|].
  inversion H as [|? ? Hnot H']; subst.
  destruct (p a); cbn [map]; [|now apply IH].
  constructor; [|now apply IH].
  intros Hin. apply Hnot. apply in_map_iff in Hin as (x & E & Hx).
  apply filter_In in Hx as [Hx _]. rewrite <- E. now apply in_map.
Qed.

(** A month of fuel refunds, never a fuel expense, and one rent payment. *)
Definition fuel_refunds : list Transaction :=
  [txn (at_midnight 2024 1 1) 20 TransactionCategory.FUEL;
   txn (at_midnight 2024 1 2) (-1000) TransactionCategory.RENT;
   txn (at_midnight 2024 1 5) 20 TransactionCategory.FUEL;
   txn (at_midnight 2024 1 10) 20 TransactionCategory.FUEL;
   txn (at_midnight 2024 1 15) 20 TransactionCategory.FUEL;
   txn (at_midnight 2024 1 20) 20 TransactionCategory.FUEL;
   txn (at_midnight 2024 1 25) 20 TransactionCategory.FUEL;
   txn (at_midnight 2024 1 31) 20 TransactionCategory.FUEL].

(** Rent, then seven fuel purchases and a dinner inside one month. *)
Definition commuter_history : list Transaction :=
  [txn (at_midnight 2024 1 1) (-40) TransactionCategory.FUEL;
   txn (at_midnight 2024 1 2) (-1000) TransactionCategory.RENT;
   txn (at_midnight 2024 1 5) (-40) TransactionCategory.FUEL;
   txn (at_midnight 2024 1 10) (-40) TransactionCategory.FUEL;
   txn (at_midnight 2024 1 12) (-30) TransactionCategory.DINING;
   txn (at_midnight 2024 1 15) (-40) TransactionCategory.FUEL;
   txn (at_midnight 2024 1 20) (-40) TransactionCategory.FUEL;
   txn (at_midnight 2024 1 25) (-40) TransactionCategory.FUEL;
   txn (at_midnight 2024 1 31) (-40) TransactionCategory.FUEL].

(** C5, as stated, fails: on [fuel_refunds], a valid list covering one
    month, the seven fuel transactions exceed [4 * months * 1.5 = 6], yet
    the report has no "frequent_fuel" entry, because no fuel transaction is
    an expense. *)
Lemma frequent_fuel_needs_an_expense :
  __init__ fuel_refunds = Return (mk fuel_refunds)
  /\ _months (mk fuel_refunds) = Return 1%float
  /\ gt (float_of_int (count_category TransactionCategory.FUEL fuel_refunds))
        (4 * 1 * 1.5)%float = true
  /\ identify_spending_patterns (mk fuel_refunds)
     = Return [Pattern.high_spending TransactionCategory.RENT 1000]
  /\ ~ (exists patterns p,
          identify_spending_patterns (mk fuel_refunds) = Return patterns
          /\ In p patterns /\ Pattern.type_ p = "frequent_fuel"%string).
Proof.
  repeat split; try (vm_compute; reflexivity).
  intros (patterns & p & H & Hin & Htype).
  vm_compute in H. injection H as <-.
  destruct Hin as [<-|[]]. discriminate Htype.
Qed.

(** C5, amended.  On an analyzer built from a valid list, with [months] the
    whole-day span of all transactions over 30, at least 1, and
    [avg_monthly] the mean of the monthly spending values, the report is:
    one "high_spending" entry for each expense category whose total over
    [months] exceeds [avg_monthly * 0.3], in descending order of category
    total; then a "frequent_fuel" entry when fuel has at least one expense
    and the count of fuel transactions exceeds [4 * months * 1.5]; then a
    "frequent_dining" entry when dining has at least one expense and the
    count of dining transactions exceeds [8 * months * 1.5]. *)
Theorem spending_patterns_spec (txns : list Transaction) (self : t) :
  __init__ txns = Return self ->
  exists t0 ts months patterns,
    txns = t0 :: ts
    /\ months = max2 (float_of_int (Spec.whole_day_span t0 ts) / 30)%float 1
    /\ identify_spending_patterns self = Return patterns
    /\ let spending := get_spending_by_category self in
       let avg_monthly := Spec.mean (values (get_monthly_spending self)) in
       let is_high item :=
         gt (snd item / months) (avg_monthly * 0.3)%float in
       let high := filter is_high (sorted_by_value_desc spending) in
       let fuel_count := count_category TransactionCategory.FUEL txns in
       let dining_count := count_category TransactionCategory.DINING txns in
       patterns
       = map (fun item =>
                Pattern.high_spending (fst item) (snd item / months)%float)
             high
         ++ (if has_expense TransactionCategory.FUEL txns
                && gt (float_of_int fuel_count) (4 * months * 1.5)%float
             then [Pattern.frequent_fuel TransactionCategory.FUEL fuel_count]
             else [])
         ++ (if has_expense TransactionCategory.DINING txns
                && gt (float_of_int dining_count) (8 * months * 1.5)%float
             then [Pattern.frequent_dining TransactionCategory.DINING
                                           dining_count]
             else [])
       /\ StronglySorted not_below high
       /\ NoDup (map fst high)
       /\ (forall item,
             In item high <-> In item spending /\ is_high item = true)
       /\ (forall c,
             get TransactionCategory.eqb spending c
             = match filter (of_category c) (filter is_expense txns) with
               | [] => None
               | picked => Some (sum (map paid picked))
               end).
Proof.
  intros Hinit.
  destruct (months_of_valid _ _ Hinit) as (t0 & ts & Htx & Hmonths).
  pose proof (init_transactions _ _ Hinit) as Hself.
  set (months := max2 _ 1) in Hmonths.
  eexists t0, ts, months, _. split; [exact Htx|]. split; [reflexivity|].
  split.
  { unfold identify_spending_patterns. rewrite Hmonths. cbn [bind].
    rewrite high_loop, !spending_contains, mean_of_values_mean.
    cbn [app]. reflexivity. }
  assert (Htxns : transactions self = txns) by now rewrite Hself.
  rewrite Htxns. cbv zeta.
  split; [|split; [|split; [|split]]].
  - change (float_of_int 4) with 4%float.
    change (float_of_int 8) with 8%float.
    destruct (has_expense TransactionCategory.FUEL txns),
      (has_expense TransactionCategory.DINING txns),
      (gt (float_of_int (count_category TransactionCategory.FUEL txns)) _),
      (gt (float_of_int (count_category TransactionCategory.DINING txns)) _);
      cbn [andb app]; rewrite ?app_nil_r, <- ?app_assoc; reflexivity.
  - apply StronglySorted_filter, sorted_by_value_desc_sorted,
      spending_nonneg.
  - apply NoDup_map_filter.
    eapply Permutation_NoDup; [|apply (spending_keys_NoDup self)].
    apply Permutation_map. symmetry. apply sorted_by_value_desc_perm.
  - intros item. rewrite filter_In. split; intros [Hin Hhigh];
      (split; [|exact Hhigh]).
    + eapply Permutation_in; [apply sorted_by_value_desc_perm | exact Hin].
    + eapply Permutation_in;
        [symmetry; apply sorted_by_value_desc_perm | exact Hin].
  - intros c. rewrite spending_entry, Htxns. reflexivity.
Qed.

Lemma spending_patterns_spec_witness :
  identify_spending_patterns (mk commuter_history)
  = Return [Pattern.high_spending TransactionCategory.RENT 1000;
            Pattern.frequent_fuel TransactionCategory.FUEL 7].
Proof.
  destruct (spending_patterns_spec commuter_history (mk commuter_history)
              eq_refl)
    as (t0 & ts & months & patterns & Htx & Hm & Hp & Heq & _).
  injection Htx as <- <-. rewrite Hp, Heq, Hm. vm_compute. reflexivity.
Defined.

End SpendingPatternsSpec.

(** ** The dialogue orchestrator *)

Section Orchestrator.
Import Py LangGraph FinancialCoachAgent.

Fixpoint count_human (messages : list BaseMessage) : nat :=
  match messages with
  | [] => 0
  | HumanMessage _ :: rest => S (count_human rest)
  | _ :: rest => count_human rest
  end.

(** A coach whose model answers every question at once, without a tool. *)
Definition plain_coach : FinancialCoachAgent.t :=
  FinancialCoachAgent.mk "default_user" "You are a friendly financial coach."
    (fun messages =>
       match count_human messages with
       | 1%nat => ("Rent is your largest expense."%string, [])
       | _ => ("You save about a third of your income."%string, [])
       end)
    (fun _ => "No spending data available."%string).

(** A coach whose model asks for a tool whatever it is shown. *)
Definition looping_coach : FinancialCoachAgent.t :=
  FinancialCoachAgent.mk "default_user" "You are a friendly financial coach."
    (fun _ => (""%string, ["get_spending_summary"%string]))
    (fun _ => "No spending data available."%string).

Lemma should_continue_after_model messages content tool_calls :
  should_continue (messages ++ [AIMessage content tool_calls])
  = match tool_calls with [] => END | _ :: _ => tools end.
Proof.
  unfold should_continue. rewrite rev_unit. now destruct tool_calls.
Qed.

(** A model that always asks for a tool exhausts any number of steps. *)
Lemma tool_loop_out_of_steps (self : FinancialCoachAgent.t) :
  (forall messages, snd (llm_with_tools self messages) <> []) ->
  forall steps messages,
    snd (run self steps agent messages) = out_of_steps
    /\ snd (run self steps tools messages) = out_of_steps.
Proof.
  intros Hloop. induction steps as [|steps IH]; intros messages.
  - split; reflexivity.
  - split; cbn [run].
    + unfold call_model, add_messages.
      specialize (Hloop messages).
      destruct (llm_with_tools self messages) as [content tool_calls].
      cbn [snd] in Hloop. rewrite should_continue_after_model.
      destruct tool_calls as [|name names]; [now elim Hloop|].
      apply IH.
    + apply IH.
Qed.

(** The graph only ever adds messages of the model and of the tools. *)
Lemma run_appends (self : FinancialCoachAgent.t) steps :
  forall next messages,
  exists produced,
    fst (run self steps next messages) = messages ++ produced
    /\ Forall (fun m => is_SystemMessage m = false) produced.
Proof.
  induction steps as [|steps IH]; intros next messages.
  - exists []. rewrite app_nil_r.
    split; [now destruct next | constructor].
  - destruct next; cbn [run].
    + unfold add_messages, call_model.
      destruct (llm_with_tools self messages) as [content tool_calls].
      destruct (IH (should_continue (messages ++ [AIMessage content tool_calls]))
                   (messages ++ [AIMessage content tool_calls]))
        as (produced & -> & Hp).
      exists (AIMessage content tool_calls :: produced).
      rewrite <- app_assoc. split; [reflexivity | now constructor].
    + unfold add_messages.
      destruct (IH agent (messages ++ run_tools self messages))
        as (produced & -> & Hp).
      exists (run_tools self messages ++ produced).
      rewrite <- app_assoc. split; [reflexivity|].
      apply Forall_app. split; [|exact Hp].
      unfold run_tools. destruct (rev messages) as [|[ | | |] ?];
        try constructor.
      apply Forall_forall. intros m Hm.
      apply in_map_iff in Hm as (name & <- & _). reflexivity.
    + exists []. rewrite app_nil_r. split; [reflexivity | constructor].
Qed.

Lemma persisted_put memory thread_id messages :
  persisted (put memory thread_id messages) thread_id = messages.
Proof. unfold persisted, put. now rewrite String.eqb_refl. Qed.

Lemma count_system_app l1 l2 :
  Spec.count_system (l1 ++ l2) = (Spec.count_system l1 + Spec.count_system l2)%nat.
Proof. unfold Spec.count_system. now rewrite filter_app, length_app. Qed.

Lemma count_system_none l :
  Forall (fun m => is_SystemMessage m = false) l -> Spec.count_system l = 0%nat.
Proof.
  unfold Spec.count_system. induction 1 as [|m l Hm _ IH]; cbn [filter].
  - reflexivity.
  - now rewrite Hm.
Qed.

End Orchestrator.

Section OrchestratorSpec.
Import Py LangGraph FinancialCoachAgent.

Definition first_question : string := "Where does my money go?".
Definition second_question : string := "How much do I save?".
Definition call_1 : string := "call_1a2b3c4d".

(** The checkpointer after the first turn of a call with [plain_coach]. *)
Definition after_first_turn : MemorySaver :=
  snd (chat plain_coach empty first_question None (Some call_1)).

(** C6 at a failing input: the second turn of a call in which the model
    answers without tools.  The graph returns the whole history of the
    thread; its most recent model-authored text is the second answer, but
    [chat] returns the first answer again, as [voice] and as [detail]. *)
Theorem chat_second_turn_repeats_first_answer :
  fst (chat plain_coach empty first_question None (Some call_1))
  = Return (mk_response "Rent is your largest expense."
                        "Rent is your largest expense.")
  /\ persisted (snd (chat plain_coach after_first_turn second_question None
                          (Some call_1))) call_1
     = [SystemMessage "You are a friendly financial coach.";
        HumanMessage first_question;
        AIMessage "Rent is your largest expense." [];
        SystemMessage "You are a friendly financial coach.";
        HumanMessage second_question;
        AIMessage "You save about a third of your income." []]
  /\ Spec.most_recent_ai_text
       (persisted (snd (chat plain_coach after_first_turn second_question None
                             (Some call_1))) call_1)
     = Some "You save about a third of your income."%string
  /\ Spec.most_recent_tool_result
       (persisted (snd (chat plain_coach after_first_turn second_question None
                             (Some call_1))) call_1)
     = None
  /\ fst (chat plain_coach after_first_turn second_question None (Some call_1))
     = Return (mk_response "Rent is your largest expense."
                           "Rent is your largest expense.").
Proof. repeat split; vm_compute; reflexivity. Qed.

(** C7, as stated, fails: with a model that keeps asking for a tool the
    run is out of steps at the limit of 10, and [chat] returns no answer. *)
Lemma chat_at_cap_returns_nothing :
  ~ (exists answer,
       fst (chat looping_coach empty first_question None None)
       = Return answer).
Proof.
  intros (answer & H). vm_compute in H. discriminate H.
Qed.

(** C7, amended.  When the run of the graph started by [chat] is out of
    steps at the recursion limit of 10, [invoke] raises
    [GraphRecursionError] and [chat], which has no handler, raises it too:
    no answer is returned.  A run is out of steps whenever the model never
    produces a tool-free message. *)
Theorem chat_at_cap_raises (self : FinancialCoachAgent.t)
    (memory : MemorySaver) (user_message : string)
    (conversation_history : option (list BaseMessage))
    (thread_id : option string) :
  snd (run self recursion_limit agent
           (add_messages (persisted memory (thread_of self thread_id))
              (chat_messages self user_message conversation_history)))
  = out_of_steps ->
  fst (chat self memory user_message conversation_history thread_id)
  = Raise (recursion_error 10)
  /\ (forall answer,
        fst (chat self memory user_message conversation_history thread_id)
        <> Return answer).
Proof.
  intros Hout. unfold chat, invoke.
  destruct (run self recursion_limit agent _) as [final st].
  cbn [snd] in Hout. subst st. cbn [fst bind].
  split; [reflexivity | discriminate].
Qed.

Lemma chat_at_cap_raises_witness :
  fst (chat looping_coach empty first_question None None)
  = Raise (recursion_error 10)
  /\ (forall answer,
        fst (chat looping_coach empty first_question None None)
        <> Return answer).
Proof.
  apply (chat_at_cap_raises looping_coach empty first_question None None).
  vm_compute. reflexivity.
Defined.

(** C8 at a failing input: two turns of one call, made without history as
    [llm_node] and the text loop make them.  The first turn finds no
    persisted state and puts the system instruction before the user
    message.  After it the persisted state of the thread holds the
    instruction; the second turn is handed the instruction again all the
    same, and the thread then holds it twice, where the claim has only the
    new user message appended. *)
Theorem second_turn_adds_system_instruction :
  Spec.count_system (persisted after_first_turn call_1) = 1%nat
  /\ chat_messages plain_coach second_question None
     = [SystemMessage "You are a friendly financial coach.";
        HumanMessage second_question]
  /\ persisted (snd (chat plain_coach after_first_turn second_question None
                          (Some call_1))) call_1
     = [SystemMessage "You are a friendly financial coach.";
        HumanMessage first_question;
        AIMessage "Rent is your largest expense." [];
        SystemMessage "You are a friendly financial coach.";
        HumanMessage second_question;
        AIMessage "You save about a third of your income." []]
  /\ Spec.count_system
       (persisted (snd (chat plain_coach after_first_turn second_question None
                             (Some call_1))) call_1)
     = 2%nat.
Proof. repeat split; vm_compute; reflexivity. Qed.

End OrchestratorSpec.

(** ** The voice turn coordinator *)

Section VoiceTurns.
Import Py LangGraph FinancialCoachVoiceAgent.

Definition turn_text (messages : list ChatItem) : string :=
  extract_user_text messages.

(** The identifier of a turn: the id of the last item of the context, or
    the extracted text when that item has none. *)
Definition turn_id (messages : list ChatItem) : string :=
  user_msg_id_of messages (turn_text messages).

Definition published (self : FinancialCoachVoiceAgent.t)
    (messages : list ChatItem) : list data_card :=
  tasks_of (snd (llm_node self messages)).

Definition next_state (self : FinancialCoachVoiceAgent.t)
    (messages : list ChatItem) : FinancialCoachVoiceAgent.t :=
  fst (llm_node self messages).

Lemma differs_same i : differs i (Some i) = false.
Proof. cbn. now rewrite String.eqb_refl. Qed.

Lemma published_at_most_one self messages :
  (List.length (published self messages) <= 1)%nat.
Proof.
  unfold published, llm_node.
  destruct (negb (truthy (extract_user_text messages))); [cbn; lia|].
  destruct (FinancialCoachAgent.chat _ _ _ _ _) as [[response|e] memory];
    [|cbn; lia].
  destruct (differs _ _); [destruct (has_trigger _)|]; cbn; lia.
Qed.

Lemma published_only_when self messages :
  published self messages <> [] ->
  differs (turn_id messages) (last_handled_user_msg_id self) = true
  /\ has_trigger (turn_text messages) = true
  /\ last_handled_user_msg_id (next_state self messages)
     = Some (turn_id messages).
Proof.
  unfold published, next_state, turn_id, turn_text, llm_node.
  destruct (negb (truthy (extract_user_text messages))); [now cbn|].
  destruct (FinancialCoachAgent.chat _ _ _ _ _) as [[response|e] memory];
    [|now cbn].
  cbn [last_handled_user_msg_id].
  destruct (differs _ _); [destruct (has_trigger _)|]; cbn; intros H;
    try (now elim H); repeat split.
Qed.

Lemma silent_turn_keeps_id self messages :
  published self messages = [] ->
  last_handled_user_msg_id (next_state self messages)
  = last_handled_user_msg_id self.
Proof.
  unfold published, next_state, llm_node.
  destruct (negb (truthy (extract_user_text messages))); [reflexivity|].
  destruct (FinancialCoachAgent.chat _ _ _ _ _) as [[response|e] memory];
    [|reflexivity].
  cbn [last_handled_user_msg_id].
  destruct (differs _ _); [destruct (has_trigger _)|]; cbn; intros H;
    try reflexivity; discriminate H.
Qed.

Lemma session_app self turns1 turns2 :
  session self (turns1 ++ turns2)
  = (fst (session (fst (session self turns1)) turns2),
     snd (session self turns1)
     ++ snd (session (fst (session self turns1)) turns2)).
Proof.
  revert self. induction turns1 as [|m turns1 IH]; intros self;
    cbn [app session fst snd].
  - now destruct (session self turns2).
  - destruct (llm_node self m) as [self1 o]. rewrite IH.
    destruct (session self1 turns1) as [self2 os]. reflexivity.
Qed.

Lemma session_length self turns :
  List.length (snd (session self turns)) = List.length turns.
Proof.
  revert self. induction turns as [|m turns IH]; intros self;
    cbn [session]; [reflexivity|].
  destruct (llm_node self m) as [self1 o]. specialize (IH self1).
  destruct (session self1 turns) as [self2 os]. cbn in *. now rewrite IH.
Qed.

End VoiceTurns.

Section VoiceTurnsSpec.
Import Py LangGraph FinancialCoachVoiceAgent.

Lemma consecutive_same_id state first second :
  turn_id first = turn_id second ->
  (List.length (published state first)
   + List.length (published (next_state state first) second) <= 1)%nat.
Proof.
  intros Hid.
  destruct (published state first) as [|card cards] eqn:E1.
  - cbn. apply published_at_most_one.
  - assert (Hne : published state first <> []) by now rewrite E1.
    destruct (published_only_when _ _ Hne) as (_ & _ & Hlast).
    destruct (published (next_state state first) second) as [|c cs] eqn:E2.
    + pose proof (published_at_most_one state first) as H.
      rewrite E1 in H. cbn in *. lia.
    + assert (Hne2 : published (next_state state first) second <> [])
        by now rewrite E2.
      destruct (published_only_when _ _ Hne2) as (Hdiff & _).
      rewrite Hlast, Hid, differs_same in Hdiff. discriminate Hdiff.
Qed.

Definition budget_turn : list ChatItem :=
  [mk_item (Some "assistant"%string)
           (content_list [part_str "Hi! How can I help you today?"])
           (Some "item_1"%string);
   mk_item (Some "user"%string)
           (content_list [part_str "What should my budget be?"])
           (Some "item_2"%string)].

Definition voice_coach : FinancialCoachVoiceAgent.t :=
  FinancialCoachVoiceAgent.mk plain_coach LangGraph.empty call_1 None.

(** C9.  In a call, whatever the turns before and after: a data card is
    scheduled in a turn only when the identifier of the turn differs from
    the stored one and the extracted user text holds a trigger keyword,
    and the stored identifier is then the identifier of that turn (it is
    unchanged in a turn that schedules none); so two consecutive turns
    with the same identifier schedule at most one card between them.  The
    chunk a turn yields is the [voice] text of the coach's answer whether
    or not a card is scheduled, and the publishing coroutine always returns
    normally: when the room's publish raises it logs one warning, which
    names the failure, and when the publish succeeds it logs nothing. *)
Theorem data_card_once_per_turn_id (self : FinancialCoachVoiceAgent.t)
    (before after : list (list ChatItem)) (first second : list ChatItem) :
  let outcomes := snd (session self (before ++ first :: second :: after)) in
  let outcome_of n := nth n outcomes delegated in
  (forall state messages,
     published state messages <> [] ->
     differs (turn_id messages) (last_handled_user_msg_id state) = true
     /\ has_trigger (turn_text messages) = true
     /\ last_handled_user_msg_id (next_state state messages)
        = Some (turn_id messages))
  /\ (forall state messages,
        published state messages = [] ->
        last_handled_user_msg_id (next_state state messages)
        = last_handled_user_msg_id state)
  /\ (turn_id first = turn_id second ->
      (List.length (tasks_of (outcome_of (List.length before)))
       + List.length (tasks_of (outcome_of (S (List.length before))))
       <= 1)%nat)
  /\ (forall state messages answer,
        truthy (turn_text messages) = true ->
        fst (FinancialCoachAgent.chat (financial_agent state) (memory state)
               (turn_text messages) None (Some (session_id state)))
        = Return answer ->
        exists tasks,
          snd (llm_node state messages)
          = replied (FinancialCoachAgent.voice answer) tasks)
  /\ (forall publish_data question content session_id,
        fst (_publish_data_card publish_data question content session_id)
        = Return tt
        /\ (forall e,
              publish_data (payload_of question content session_id)
              = Raise e ->
              snd (_publish_data_card publish_data question content
                                      session_id)
              = [("Data card publish failed: " ++ str_of_exn e)%string])
        /\ (forall ok,
              publish_data (payload_of question content session_id)
              = Return ok ->
              snd (_publish_data_card publish_data question content
                                      session_id)
              = [])).
Proof.
  cbv zeta. split; [exact published_only_when|].
  split; [exact silent_turn_keeps_id|]. split; [|split].
  - intros Hid. rewrite session_app. cbn [snd].
    rewrite !app_nth2; rewrite session_length; [|lia|lia].
    replace (List.length before - List.length before)%nat with 0%nat by lia.
    replace (S (List.length before) - List.length before)%nat with 1%nat
      by lia.
    set (state := fst (session self before)).
    cbn [session].
    pose proof (consecutive_same_id state first second Hid) as H.
    unfold published, next_state in H.
    destruct (llm_node state first) as [state1 o1].
    cbn [fst snd] in H.
    destruct (llm_node state1 second) as [state2 o2].
    destruct (session state2 after) as [state3 os].
    exact H.
  - intros state messages answer Htext Hchat.
    unfold llm_node, turn_text in *. rewrite Htext. cbn [negb].
    destruct (FinancialCoachAgent.chat _ _ _ _ _) as [result memory'].
    cbn [fst] in Hchat. subst result.
    destruct (differs _ _); [destruct (has_trigger _)|]; eexists; reflexivity.
  - intros publish_data question content session_id.
    unfold _publish_data_card.
    destruct (publish_data _) as [u|e']; cbn [fst snd].
    + split; [reflexivity|].
      split; [intros e He; discriminate He | intros ok _; reflexivity].
    + split; [reflexivity|].
      split; [|intros ok He; discriminate He].
      intros e He. now injection He as ->.
Qed.

Definition closed_room (card : data_card) : result unit :=
  Raise (ValueError "room closed").

Lemma data_card_once_per_turn_id_witness :
  map tasks_of (snd (session voice_coach [budget_turn; budget_turn]))
  = [[mk_card "financial_data_card" "What should my budget be?"
              "Rent is your largest expense." call_1]; []]
  /\ (List.length
        (tasks_of (nth 0 (snd (session voice_coach [budget_turn; budget_turn]))
                       delegated))
      + List.length
          (tasks_of (nth 1 (snd (session voice_coach [budget_turn; budget_turn]))
                         delegated))
      <= 1)%nat
  /\ _publish_data_card closed_room "What should my budget be?"
       "Rent is your largest expense." call_1
     = (Return tt, ["Data card publish failed: room closed"%string]).
Proof.
  pose proof (data_card_once_per_turn_id voice_coach [] [] budget_turn
                budget_turn) as (_ & _ & Honce & _ & Hpublish).
  split; [vm_compute; reflexivity|]. split; [exact (Honce eq_refl)|].
  destruct (Hpublish closed_room "What should my budget be?"%string
              "Rent is your largest expense."%string call_1)
    as (Hreturns & Hlogs & _).
  specialize (Hlogs (ValueError "room closed") eq_refl).
  destruct (_publish_data_card closed_room _ _ _) as [outcome logged].
  cbn [fst snd] in *. now subst.
Defined.

End VoiceTurnsSpec.

(** * Further properties of the code *)

(** ** The spending reports *)

Section SpendingReports.
Import Py FinancialAnalyzer.

(** [get_spending_by_category] has one entry for each category with at
    least one expense and none for the others; the entry is the sum of the
    absolute amounts of the category's expenses, in list order; and every
    total is at least 0, so never a NaN. *)
Theorem spending_by_category_report (self : t) :
  let spending := get_spending_by_category self in
  NoDup (keys spending)
  /\ (forall c,
        contains TransactionCategory.eqb spending c
        = has_expense c (transactions self))
  /\ (forall c,
        get TransactionCategory.eqb spending c
        = match filter (of_category c)
                       (filter is_expense (transactions self)) with
          | [] => None
          | picked => Some (sum (map paid picked))
          end)
  /\ Forall (fun item => PrimFloat.leb 0 (snd item) = true) spending.
Proof.
  cbv zeta. split; [apply spending_keys_NoDup|].
  split; [apply spending_contains|].
  split; [apply spending_entry|]. apply spending_nonneg.
Qed.

Lemma monthly_as_fold self :
  get_monthly_spending self
  = fold_left
      (fun d x => iadd String.eqb d (Datetime.strftime_Y_m (date x)) (paid x))
      (filter is_expense (transactions self)) [].
Proof.
  unfold get_monthly_spending.
  apply (fold_left_guard is_expense
           (fun d x => iadd String.eqb d (Datetime.strftime_Y_m (date x))
                            (paid x))).
Qed.

(** [get_monthly_spending] has one entry for each month ("YYYY-MM") in
    which there is an expense and none for the others; the entry is the
    sum of the absolute amounts of the month's expenses, in list order;
    and every total is at least 0. *)
Theorem monthly_spending_report (self : t) :
  let monthly := get_monthly_spending self in
  NoDup (keys monthly)
  /\ (forall k,
        get String.eqb monthly k
        = match filter (in_month k)
                       (filter is_expense (transactions self)) with
          | [] => None
          | picked => Some (sum (map paid picked))
          end)
  /\ Forall (fun item => PrimFloat.leb 0 (snd item) = true) monthly.
Proof.
  cbv zeta. rewrite monthly_as_fold. split; [|split].
  - apply (fold_invariant (fun d => NoDup (keys d)) (fun _ => True)).
    + intros d x Hd _. now apply (keys_iadd_NoDup String.eqb String.eqb_eq).
    + constructor.
    + apply Forall_forall. trivial.
  - intros k.
    now rewrite (get_fold_iadd String.eqb String.eqb_eq
                   (fun x => Datetime.strftime_Y_m (date x)) paid).
  - apply (fold_invariant (Forall nonneg_value)
             (fun x => is_expense x = true)).
    + intros d x Hd Hx. apply iadd_nonneg; [|exact Hd].
      now apply nonneg_abs_of_negative.
    + constructor.
    + apply Forall_forall. intros x Hx. now apply filter_In in Hx.
Qed.

End SpendingReports.

(** ** Months are never below one *)

Section MonthsAtLeastOne.
Import Py FinancialAnalyzer.

Lemma binary_round_nonneg prec emax m e :
  sf_nonneg (binary_round prec emax false m e) = true.
Proof.
  unfold binary_round. destruct (shl_align _ _ _).
  now apply binary_round_aux_nonneg.
Qed.

Lemma nonneg_of_uint63 n : nonneg (PrimFloat.of_uint63 n) = true.
Proof.
  rewrite nonneg_sf, of_uint63_spec.
  pose proof (Uint63.to_Z_bounded n) as [Hn _].
  destruct (Uint63.to_Z n) as [|p|p]; cbn [binary_normalize].
  - reflexivity.
  - apply binary_round_nonneg.
  - lia.
Qed.

Lemma nonneg_float_of_int n : 0 <= n -> nonneg (float_of_int n) = true.
Proof.
  intros Hn. unfold float_of_int.
  destruct (Z.ltb_spec n 0); [lia|]. apply nonneg_of_uint63.
Qed.

Lemma SFdiv_nonneg prec emax s m e :
  sf_nonneg s = true ->
  sf_nonneg (SFdiv prec emax s (S754_finite false m e)) = true.
Proof.
  destruct s as [[]|[]| |[] m1 e1]; cbn [sf_nonneg SFdiv xorb];
    try discriminate; try reflexivity.
  intros _. unfold SFdiv_core_binary.
  set (m' := match _ with Z0 => _ | Zpos _ => _ | Zneg _ => _ end).
  assert (Hm' : 0 <= m').
  { subst m'. destruct (_ - _ - _); try lia. apply Z.shiftl_nonneg. lia. }
  pose proof (Z.div_pos m' (Zpos m) Hm' eq_refl) as Hq.
  unfold Z.div in Hq.
  destruct (Z.div_eucl m' (Zpos m)) as [q r]. cbn [fst] in Hq.
  now apply binary_round_aux_nonneg.
Qed.

Lemma nonneg_div_30 x : nonneg x = true -> nonneg (x / 30) = true.
Proof.
  rewrite !nonneg_sf, FloatAxioms.div_spec.
  change (Prim2SF 30) with (S754_finite false 8444249301319680 (-48)).
  apply SFdiv_nonneg.
Qed.

Lemma SFleb_of_not_ltb s1 s2 :
  sf_nonneg s1 = true -> sf_nonneg s2 = true ->
  SFltb s1 s2 = false -> SFleb s2 s1 = true.
Proof.
  unfold SFltb, SFleb.
  destruct s1 as [[]|[]| |[] m1 e1], s2 as [[]|[]| |[] m2 e2];
    cbn [sf_nonneg SFcompare]; try discriminate; try reflexivity;
    intros _ _ H;
    change (Pos.compare_cont Eq m1 m2) with (Pos.compare m1 m2) in H;
    change (Pos.compare_cont Eq m2 m1) with (Pos.compare m2 m1);
    rewrite (Z.compare_antisym e1 e2), (Pos.compare_antisym m1 m2);
    destruct (e1 ?= e2); cbn in *; try discriminate; try reflexivity;
    destruct (m1 ?= m2)%positive; cbn in *;
    try discriminate; reflexivity.
Qed.

(** [max(x, 1)] of a float that is not negative and not a NaN is at
    least 1. *)
Lemma max2_one_at_least_one x :
  nonneg x = true -> PrimFloat.leb 1 (max2 x 1) = true.
Proof.
  intros Hx. unfold max2, gt.
  destruct (PrimFloat.ltb x 1) eqn:E; [reflexivity|].
  rewrite FloatAxioms.leb_spec. rewrite FloatAxioms.ltb_spec in E.
  rewrite nonneg_sf in Hx.
  now apply SFleb_of_not_ltb.
Qed.

Lemma fold_max_ge l a : a <= fold_left Z.max l a.
Proof.
  revert a. induction l as [|x l IH]; intros a; cbn [fold_left]; [lia|].
  specialize (IH (Z.max a x)). lia.
Qed.

Lemma fold_min_le l a : fold_left Z.min l a <= a.
Proof.
  revert a. induction l as [|x l IH]; intros a; cbn [fold_left]; [lia|].
  specialize (IH (Z.min a x)). lia.
Qed.

Lemma span_days_nonneg t0 ts : 0 <= span_days t0 ts.
Proof.
  rewrite span_days_whole_day_span. unfold Spec.whole_day_span.
  apply Z.div_pos; [|reflexivity].
  pose proof (fold_max_ge (map (fun t => Datetime.micros (date t)) ts)
                (Datetime.micros (date t0))).
  pose proof (fold_min_le (map (fun t => Datetime.micros (date t)) ts)
                (Datetime.micros (date t0))).
  unfold Spec.latest, Spec.earliest. lia.
Qed.

(** On a constructed analyzer [_months] returns, and what it returns is
    at least 1; so do the months covered by the income report whenever
    there is income.  No monthly figure is a division by zero or by a
    fraction of a month. *)
Theorem months_at_least_one (txns : list Transaction) (self : t) :
  __init__ txns = Return self ->
  (exists months,
     _months self = Return months /\ PrimFloat.leb 1 months = true)
  /\ ((exists x, In x txns /\ gt (amount x) 0 = true) ->
      PrimFloat.leb 1 (IncomeSummary.months_covered (get_income_summary self))
      = true).
Proof.
  intros Hinit. pose proof (init_transactions _ _ Hinit) as ->.
  split.
  - destruct txns as [|t0 ts]; [discriminate Hinit|].
    eexists. split; [reflexivity|].
    apply max2_one_at_least_one, nonneg_div_30, nonneg_float_of_int,
      span_days_nonneg.
  - intros (x & Hin & Hpos). unfold get_income_summary. cbn [transactions].
    destruct (filter (fun t => gt (amount t) 0) txns) as [|t0 ts] eqn:E.
    + apply (proj1 (filter_nil_iff _ _)) with (x := x) in E; [|exact Hin].
      congruence.
    + cbn [IncomeSummary.months_covered].
      change (float_of_int 30) with 30%float.
      change (float_of_int 1) with 1%float.
      apply max2_one_at_least_one, nonneg_div_30, nonneg_float_of_int,
        span_days_nonneg.
Qed.

Lemma months_at_least_one_witness :
  (exists months,
     _months (mk salaried_history) = Return months
     /\ PrimFloat.leb 1 months = true)
  /\ PrimFloat.leb 1 (IncomeSummary.months_covered
                        (get_income_summary (mk salaried_history))) = true.
Proof.
  destruct (months_at_least_one salaried_history (mk salaried_history)
              eq_refl) as [Hm Hi].
  split; [exact Hm|]. apply Hi.
  eexists. split; [left; reflexivity | reflexivity].
Defined.

End MonthsAtLeastOne.

(** ** A budget without income *)

Section BudgetWithoutIncome.
Import Py FinancialAnalyzer.

Lemma budget_loop (avg_income months : float)
    (spending : list (TransactionCategory.t * float))
    (l : list (TransactionCategory.t * Z)) recs tot :
  fold_left
    (fun acc target =>
       let '(recommendations, total_recommended) := acc in
       let '(category, pct) := target in
       let recommended :=
         if gt avg_income 0
         then (avg_income * float_of_int pct / float_of_int 100)%float
         else 0%float in
       let actual := (get_or_zero spending category / months)%float in
       let total_recommended := (total_recommended + recommended)%float in
       if gt actual (recommended * 1.2)%float
       then
         let cat_name :=
           title (replace_char "_" " " (TransactionCategory.value category)) in
         (recommendations ++ [Recommendation.mk cat_name recommended actual],
          total_recommended)
       else (recommendations, total_recommended))
    l (recs, tot)
  = (recs ++ map (entry avg_income months spending)
                 (filter (flagged avg_income months spending) l),
     fold_left PrimFloat.add
       (map (fun target => recommended avg_income (snd target)) l) tot).
Proof.
  revert recs tot. induction l as [|[c pct] l IH]; intros recs tot;
    cbn [fold_left filter map].
  - now rewrite app_nil_r.
  - change (flagged avg_income months spending (c, pct))
      with (gt (get_or_zero spending c / months)%float
               ((if gt avg_income 0
                 then (avg_income * float_of_int pct / float_of_int 100)%float
                 else 0%float) * 1.2)%float).
    destruct (gt (get_or_zero spending c / months)%float _) eqn:E;
      rewrite IH; cbn [map snd]; [rewrite <- app_assoc|]; reflexivity.
Qed.

(** A year of rent and groceries paid from savings: no income at all. *)
Definition retired_history : list Transaction :=
  [txn (at_midnight 2024 1 1) (-900) TransactionCategory.RENT;
   txn (at_midnight 2024 1 20) (-150) TransactionCategory.GROCERIES;
   txn (at_midnight 2024 3 1) (-900) TransactionCategory.RENT].

(** Without any transaction of positive amount the budget report
    recommends 0 for every target, so its total recommended budget is 0,
    and it lists exactly the target categories whose spending per month is
    positive, in target order. *)
Theorem budget_without_income (txns : list Transaction) (self : t) :
  __init__ txns = Return self ->
  (forall x, In x txns -> gt (amount x) 0 = false) ->
  exists months r,
    _months self = Return months
    /\ get_budget_recommendations self = Return r
    /\ BudgetRecommendations.average_monthly_income r = 0%float
    /\ BudgetRecommendations.total_recommended_budget r = 0%float
    /\ BudgetRecommendations.recommendations r
       = map (fun target =>
                Recommendation.mk (display_name (fst target)) 0
                  (category_total (fst target) txns / months)%float)
             (filter (fun target =>
                        gt (category_total (fst target) txns / months) 0)
                     targets).
Proof.
  intros Hinit Hno.
  destruct (months_of_valid _ _ Hinit) as (t0 & ts & Htx & Hmonths).
  pose proof (init_transactions _ _ Hinit) as Hself.
  eexists _, _. split; [exact Hmonths|].
  unfold get_budget_recommendations. rewrite Hmonths. cbn [bind].
  rewrite income_summary_without_income by (rewrite Hself; exact Hno).
  cbn [IncomeSummary.average_monthly IncomeSummary.average_monthly_spending
       no_income].
  rewrite budget_loop. split; [reflexivity|].
  cbn [BudgetRecommendations.average_monthly_income
       BudgetRecommendations.total_recommended_budget
       BudgetRecommendations.recommendations app].
  split; [reflexivity|]. split; [reflexivity|].
  assert (Hactual : forall c,
    actual (max2 (float_of_int (Spec.whole_day_span t0 ts) / 30) 1)
           (get_spending_by_category self) c
    = (category_total c txns
       / max2 (float_of_int (Spec.whole_day_span t0 ts) / 30) 1)%float).
  { intros c. unfold actual. rewrite get_or_zero_category_total.
    now rewrite Hself. }
  rewrite (filter_ext _
             (fun target =>
                gt (category_total (fst target) txns
                    / max2 (float_of_int (Spec.whole_day_span t0 ts) / 30) 1)
                   0)).
  - apply map_ext. intros [c pct]. unfold entry. cbn [fst snd].
    now rewrite Hactual.
  - intros [c pct]. unfold flagged. cbn [fst snd]. now rewrite Hactual.
Qed.

Lemma budget_without_income_witness :
  exists r,
    get_budget_recommendations (mk retired_history) = Return r
    /\ BudgetRecommendations.total_recommended_budget r = 0%float
    /\ map Recommendation.category (BudgetRecommendations.recommendations r)
       = ["Rent"; "Groceries"]%string.
Proof.
  destruct (budget_without_income retired_history (mk retired_history)
              eq_refl)
    as (months & r & Hm & Hr & _ & Htotal & Hrecs).
  - intros x Hx. cbn in Hx.
    repeat (destruct Hx as [<-|Hx]; [reflexivity|]). destruct Hx.
  - exists r. split; [exact Hr|]. split; [exact Htotal|].
    rewrite Hrecs. vm_compute in Hm. injection Hm as <-.
    vm_compute. reflexivity.
Defined.

End BudgetWithoutIncome.

(** ** Runs of the graph *)

Section GraphRuns.
Import Py LangGraph FinancialCoachAgent.

Definition is_AIMessage (m : BaseMessage) : bool :=
  match m with AIMessage _ _ => true | _ => false end.

Definition count_model_messages (messages : list BaseMessage) : nat :=
  List.length (filter is_AIMessage messages).

Lemma run_done_shape (self : FinancialCoachAgent.t) steps :
  forall messages,
    (snd (run self steps agent messages) = done ->
     exists produced content,
       fst (run self steps agent messages)
       = messages ++ produced ++ [AIMessage content []])
    /\ (snd (run self steps tools messages) = done ->
        exists produced content,
          fst (run self steps tools messages)
          = messages ++ produced ++ [AIMessage content []]).
Proof.
  induction steps as [|steps IH]; intros messages.
  - split; cbn; discriminate.
  - split; cbn [run]; unfold add_messages.
    + unfold call_model.
      destruct (llm_with_tools self messages) as [content tool_calls].
      rewrite should_continue_after_model.
      destruct tool_calls as [|name names].
      * intros _. exists [], content.
        destruct steps; reflexivity.
      * intros Hdone.
        destruct (proj2 (IH _) Hdone) as (produced & c & ->).
        exists (AIMessage content (name :: names) :: produced), c.
        now rewrite <- app_assoc.
    + intros Hdone.
      destruct (proj1 (IH _) Hdone) as (produced & c & ->).
      exists (run_tools self messages ++ produced), c.
      now rewrite <- !app_assoc.
Qed.

(** When a call of [chat] without history returns an answer, the thread
    then holds what it held before, the system instruction and the user
    message, what the run produced, and last a message of the model
    without tool calls; the answer is what the scan picks from that
    list. *)
Theorem chat_returns_tool_free_answer (self : FinancialCoachAgent.t)
    (memory : MemorySaver) (user_message : string)
    (thread_id : option string) (answer : response) :
  fst (chat self memory user_message None thread_id) = Return answer ->
  exists produced content,
    persisted (snd (chat self memory user_message None thread_id))
              (thread_of self thread_id)
    = persisted memory (thread_of self thread_id)
      ++ [SystemMessage (get_system_prompt self); HumanMessage user_message]
      ++ produced ++ [AIMessage content []]
    /\ answer
       = extract
           (persisted memory (thread_of self thread_id)
            ++ [SystemMessage (get_system_prompt self);
                HumanMessage user_message]
            ++ produced ++ [AIMessage content []]).
Proof.
  unfold chat, invoke, add_messages.
  pose proof (proj1 (run_done_shape self recursion_limit
                       (persisted memory (thread_of self thread_id)
                        ++ chat_messages self user_message None)))
    as Hshape.
  destruct (run self recursion_limit agent _) as [final st].
  cbn [fst snd] in *.
  destruct st; cbn [fst snd bind]; [|discriminate].
  intros H. injection H as <-.
  destruct (Hshape eq_refl) as (produced & content & ->).
  exists produced, content. rewrite persisted_put, <- app_assoc.
  split; reflexivity.
Qed.

Lemma chat_returns_tool_free_answer_witness :
  exists produced content,
    persisted (snd (chat plain_coach empty first_question None
                         (Some call_1))) call_1
    = persisted empty call_1
      ++ [SystemMessage "You are a friendly financial coach.";
          HumanMessage first_question]
      ++ produced ++ [AIMessage content []]
    /\ mk_response "Rent is your largest expense."
                   "Rent is your largest expense."
       = extract
           (persisted empty call_1
            ++ [SystemMessage "You are a friendly financial coach.";
                HumanMessage first_question]
            ++ produced ++ [AIMessage content []]).
Proof.
  apply (chat_returns_tool_free_answer plain_coach empty first_question
           (Some call_1)).
  vm_compute. reflexivity.
Defined.

Lemma count_model_messages_app l1 l2 :
  count_model_messages (l1 ++ l2)
  = (count_model_messages l1 + count_model_messages l2)%nat.
Proof. unfold count_model_messages. now rewrite filter_app, length_app. Qed.

Lemma run_tools_no_model_message (self : FinancialCoachAgent.t) messages :
  count_model_messages (run_tools self messages) = 0%nat.
Proof.
  unfold run_tools, count_model_messages.
  destruct (rev messages) as [|[ | | |] ?]; try reflexivity.
  induction tool_calls as [|name names IH]; [reflexivity | exact IH].
Qed.

Lemma run_model_calls (self : FinancialCoachAgent.t) steps :
  forall messages,
    (exists produced,
       fst (run self steps agent messages) = messages ++ produced
       /\ (2 * count_model_messages produced <= steps + 1)%nat)
    /\ (exists produced,
          fst (run self steps tools messages) = messages ++ produced
          /\ (2 * count_model_messages produced <= steps)%nat).
Proof.
  induction steps as [|steps IH]; intros messages.
  - split; exists []; rewrite app_nil_r; split; try reflexivity; cbn; lia.
  - split; cbn [run]; unfold add_messages.
    + unfold call_model.
      destruct (llm_with_tools self messages) as [content tool_calls].
      rewrite should_continue_after_model.
      destruct tool_calls as [|name names].
      * exists [AIMessage content []]. split.
        -- now destruct steps.
        -- cbn. lia.
      * destruct (proj2 (IH (messages ++ [AIMessage content (name :: names)])))
          as (produced & -> & Hc).
        exists (AIMessage content (name :: names) :: produced).
        split; [now rewrite <- app_assoc|].
        change (AIMessage content (name :: names) :: produced)
          with ([AIMessage content (name :: names)] ++ produced).
        rewrite count_model_messages_app. cbn. cbn in Hc. lia.
    + destruct (proj1 (IH (messages ++ run_tools self messages)))
        as (produced & -> & Hc).
      exists (run_tools self messages ++ produced).
      split; [now rewrite <- app_assoc|].
      rewrite count_model_messages_app, run_tools_no_model_message.
      cbn. cbn in Hc. lia.
Qed.

(** One call of [chat] asks the model at most five times, whether it
    ends with an answer or at the recursion limit: what it adds to the
    thread after the system instruction and the user message holds at
    most five messages of the model. *)
Theorem chat_asks_model_at_most_five_times (self : FinancialCoachAgent.t)
    (memory : MemorySaver) (user_message : string)
    (thread_id : option string) :
  exists produced,
    persisted (snd (chat self memory user_message None thread_id))
              (thread_of self thread_id)
    = persisted memory (thread_of self thread_id)
      ++ [SystemMessage (get_system_prompt self); HumanMessage user_message]
      ++ produced
    /\ (count_model_messages produced <= 5)%nat.
Proof.
  unfold chat, invoke, add_messages.
  destruct (proj1 (run_model_calls self recursion_limit
                     (persisted memory (thread_of self thread_id)
                      ++ chat_messages self user_message None)))
    as (produced & Hrun & Hc).
  destruct (run self recursion_limit agent _) as [final st].
  cbn [fst] in Hrun. subst final. exists produced. split.
  - rewrite <- app_assoc. destruct st; cbn [snd]; apply persisted_put.
  - unfold recursion_limit in Hc. lia.
Qed.

End GraphRuns.

(** ** What [chat] picks from the messages *)

Section Extraction.
Import Py LangGraph FinancialCoachAgent.

Definition has_text (m : BaseMessage) : bool :=
  match m with
  | AIMessage content _ => truthy content
  | _ => false
  end.

(** A tool result with non-empty content. *)
Definition is_tool_text (m : BaseMessage) : bool :=
  match m with
  | ToolMessage content => truthy content
  | _ => false
  end.

(** The content of the first message of the model with text, from the
    front of the list. *)
Definition earliest_model_text (messages : list BaseMessage)
    (default : string) : string :=
  match find has_text messages with
  | Some (AIMessage content _) => content
  | _ => default
  end.

Lemma scan_frozen l spoken detailed :
  truthy detailed = true ->
  fold_left scan_step l (spoken, detailed) = (spoken, detailed).
Proof.
  intros Hd. induction l as [|m l IH]; cbn [fold_left]; [reflexivity|].
  replace (scan_step (spoken, detailed) m) with (spoken, detailed);
    [exact IH|].
  unfold scan_step. rewrite Hd. cbn [negb].
  destruct m; rewrite ?andb_false_r; reflexivity.
Qed.

Lemma fold_left_rev {A B} (f : A -> B -> A) l a :
  fold_left f (rev l) a = fold_right (fun x acc => f acc x) a l.
Proof.
  induction l as [|x l IH]; cbn [rev fold_right]; [reflexivity|].
  now rewrite fold_left_app, IH.
Qed.

Lemma scan_without_tool_text l spoken :
  Forall (fun m => is_tool_text m = false) l ->
  fold_left scan_step (rev l) (spoken, ""%string)
  = (earliest_model_text l spoken, ""%string).
Proof.
  intros Hl. rewrite fold_left_rev. unfold earliest_model_text.
  induction Hl as [|m l Hm _ IH]; cbn [fold_right find]; [reflexivity|].
  rewrite IH. unfold scan_step.
  destruct m as [c|c|c tcs|c]; cbn [has_text is_tool_text] in *;
    try reflexivity.
  - change (truthy "") with false. cbn [negb]. rewrite andb_true_r.
    destruct (truthy c); reflexivity.
  - change (truthy "") with false. cbn [negb].
    unfold truthy in Hm. apply negb_false_iff, String.eqb_eq in Hm.
    now subst c.
Qed.

(** Without a tool result with text in the list, [voice] is the text of
    the earliest message of the model with text in the whole list (the
    fixed sentence if there is none), and [detail] is the same. *)
Theorem extract_without_tool_result (messages : list BaseMessage) :
  Forall (fun m => is_tool_text m = false) messages ->
  extract messages
  = mk_response (earliest_model_text messages fallback)
                (earliest_model_text messages fallback).
Proof.
  intros H. unfold extract. now rewrite scan_without_tool_text.
Qed.

Lemma extract_without_tool_result_witness :
  extract [HumanMessage first_question;
           AIMessage "Rent is your largest expense." [];
           HumanMessage second_question;
           AIMessage "You save about a third of your income." []]
  = mk_response "Rent is your largest expense."
                "Rent is your largest expense.".
Proof.
  rewrite extract_without_tool_result; [reflexivity|].
  repeat constructor.
Defined.

(** With a tool result with text in the list, [detail] is the content of
    the last such result, and [voice] is the text of the earliest message
    of the model with text after it (the fixed sentence if there is none);
    nothing before that tool result is looked at. *)
Theorem extract_after_tool_result (before after : list BaseMessage)
    (content : string) :
  truthy content = true ->
  Forall (fun m => is_tool_text m = false) after ->
  extract (before ++ ToolMessage content :: after)
  = mk_response (earliest_model_text after fallback) content.
Proof.
  intros Hc Hafter. unfold extract.
  rewrite rev_app_distr. cbn [rev]. rewrite <- app_assoc. cbn [app].
  rewrite fold_left_app, scan_without_tool_text by exact Hafter.
  cbn [fold_left]. unfold scan_step at 2. cbn [truthy String.eqb negb].
  rewrite scan_frozen by exact Hc. now rewrite Hc.
Qed.

Lemma extract_after_tool_result_witness :
  extract [HumanMessage first_question;
           AIMessage "Let me look." ["get_spending_summary"%string];
           ToolMessage "Spending Summary: rent 1200";
           AIMessage "Rent is your largest expense." []]
  = mk_response "Rent is your largest expense."
                "Spending Summary: rent 1200".
Proof.
  apply (extract_after_tool_result
           [HumanMessage first_question;
            AIMessage "Let me look." ["get_spending_summary"%string]]
           [AIMessage "Rent is your largest expense." []]
           "Spending Summary: rent 1200").
  - reflexivity.
  - repeat constructor.
Defined.

End Extraction.

(** ** Turns that end with an answer *)

Section AnsweredTurns.
Import Py LangGraph FinancialCoachAgent.

(** A coach whose model first asks for the spending summary and answers
    once it has a tool result. *)
Definition tool_coach : FinancialCoachAgent.t :=
  FinancialCoachAgent.mk "default_user" "You are a friendly financial coach."
    (fun messages =>
       match rev messages with
       | ToolMessage _ :: _ => ("Rent is your largest expense."%string, [])
       | _ => (""%string, ["get_spending_summary"%string])
       end)
    (fun _ => "Spending Summary: rent 1200"%string).

(** On a thread without checkpoint, when the model answers the system
    instruction and the user message at once, with text and without a tool
    call, [chat] returns that text as [voice] and as [detail], and the
    thread then holds the three messages. *)
Theorem chat_direct_answer (self : FinancialCoachAgent.t)
    (memory : MemorySaver) (user_message answer : string)
    (thread_id : option string) :
  persisted memory (thread_of self thread_id) = [] ->
  llm_with_tools self [SystemMessage (get_system_prompt self);
                       HumanMessage user_message] = (answer, []) ->
  truthy answer = true ->
  fst (chat self memory user_message None thread_id)
  = Return (mk_response answer answer)
  /\ persisted (snd (chat self memory user_message None thread_id))
               (thread_of self thread_id)
     = [SystemMessage (get_system_prompt self);
        HumanMessage user_message;
        AIMessage answer []].
Proof.
  intros Hfresh Hllm Htext. unfold chat, invoke. rewrite Hfresh.
  cbn [chat_messages nonempty negb orb app add_messages].
  unfold recursion_limit. cbn [run]. unfold call_model, add_messages.
  rewrite Hllm. cbn [app should_continue rev run fst snd bind].
  split; [|apply persisted_put].
  unfold extract. cbn [rev app fold_left scan_step].
  rewrite Htext. reflexivity.
Qed.

Lemma chat_direct_answer_witness :
  fst (chat plain_coach empty first_question None (Some call_1))
  = Return (mk_response "Rent is your largest expense."
                        "Rent is your largest expense.")
  /\ persisted (snd (chat plain_coach empty first_question None (Some call_1)))
               call_1
     = [SystemMessage "You are a friendly financial coach.";
        HumanMessage first_question;
        AIMessage "Rent is your largest expense." []].
Proof.
  apply (chat_direct_answer plain_coach empty first_question
           "Rent is your largest expense." (Some call_1)); reflexivity.
Defined.

Lemma run_END (self : FinancialCoachAgent.t) steps messages :
  run self steps END messages = (messages, done).
Proof. now destruct steps. Qed.

Lemma run_agent_answers (self : FinancialCoachAgent.t) steps messages content :
  llm_with_tools self messages = (content, []) ->
  run self (S steps) agent messages
  = (messages ++ [AIMessage content []], done).
Proof.
  intros Hllm. cbn [run]. unfold call_model, add_messages. rewrite Hllm.
  rewrite should_continue_after_model. apply run_END.
Qed.

Lemma run_agent_asks (self : FinancialCoachAgent.t) steps messages content
    tool_calls :
  llm_with_tools self messages = (content, tool_calls) ->
  tool_calls <> [] ->
  run self (S (S steps)) agent messages
  = run self steps agent
      (messages ++ [AIMessage content tool_calls]
       ++ map (fun n => ToolMessage (tool_node self n)) tool_calls).
Proof.
  intros Hllm Hcalls. cbn [run]. unfold call_model, add_messages.
  rewrite Hllm, should_continue_after_model.
  destruct tool_calls as [|n ns]; [now elim Hcalls|].
  unfold run_tools. rewrite rev_unit. now rewrite <- app_assoc.
Qed.

(** Whatever the thread holds, when the model answers the turn by asking
    for tools and, shown their results, answers without a tool call,
    [chat] returns as [detail] the result of the last tool asked for, if it
    has text, and as [voice] the text of that second answer (the fixed
    sentence if it has none). *)
Theorem chat_after_one_tool_round (self : FinancialCoachAgent.t)
    (memory : MemorySaver) (user_message : string)
    (thread_id : option string)
    (request answer : string) (names : list string) (name : string) :
  let asked :=
    persisted memory (thread_of self thread_id)
    ++ [SystemMessage (get_system_prompt self); HumanMessage user_message] in
  let shown :=
    asked ++ [AIMessage request (names ++ [name])]
    ++ map (fun n => ToolMessage (tool_node self n)) (names ++ [name]) in
  llm_with_tools self asked = (request, names ++ [name]) ->
  llm_with_tools self shown = (answer, []) ->
  truthy (tool_node self name) = true ->
  fst (chat self memory user_message None thread_id)
  = Return (mk_response (if truthy answer then answer else fallback)
                        (tool_node self name)).
Proof.
  cbv zeta. intros Hasked Hshown Htool. unfold chat, invoke.
  cbn [chat_messages nonempty negb orb app].
  unfold recursion_limit, add_messages.
  rewrite (run_agent_asks self 8 _ _ _ Hasked) by now destruct names.
  rewrite (run_agent_answers self 7 _ _ Hshown).
  cbn [fst snd bind]. f_equal.
  rewrite map_app. cbn [map]. unfold extract.
  rewrite !rev_app_distr. cbn [rev app fold_left].
  change (scan_step (fallback, ""%string) (AIMessage answer []))
    with (if truthy answer && true then answer else fallback, ""%string).
  rewrite andb_true_r.
  set (spoken := if truthy answer then answer else fallback).
  change (scan_step (spoken, ""%string) (ToolMessage (tool_node self name)))
    with (spoken, tool_node self name).
  rewrite scan_frozen by exact Htool. now rewrite Htool.
Qed.

Lemma chat_after_one_tool_round_witness :
  fst (chat tool_coach after_first_turn second_question None (Some call_1))
  = Return (mk_response "Rent is your largest expense."
                        "Spending Summary: rent 1200").
Proof.
  apply (chat_after_one_tool_round tool_coach after_first_turn
           second_question (Some call_1) "" "Rent is your largest expense."
           [] "get_spending_summary"); reflexivity.
Defined.

End AnsweredTurns.

(** ** Tools on missing data *)

Section ToolsOnMissingData.
Import Py FinancialAnalyzer.

Lemma iadd_not_nil {K} (eqb : K -> K -> bool) d k v : iadd eqb d k v <> [].
Proof. destruct d as [|[k' w] d]; cbn; [|destruct (eqb k k')]; discriminate. Qed.

Lemma fold_iadd_not_nil {K T} (eqb : K -> K -> bool) (key : T -> K)
    (val : T -> float) l d :
  d <> [] ->
  fold_left (fun d x => iadd eqb d (key x) (val x)) l d <> [].
Proof.
  revert d. induction l as [|x l IH]; intros d Hd; cbn [fold_left].
  - exact Hd.
  - apply IH, iadd_not_nil.
Qed.

Lemma spending_empty_iff self :
  get_spending_by_category self = []
  <-> (forall x, In x (transactions self) -> is_expense x = false).
Proof.
  rewrite spending_as_fold, <- filter_nil_iff.
  destruct (filter is_expense (transactions self)) as [|x l]; cbn [fold_left].
  - tauto.
  - split; [|discriminate]. intros H. exfalso. revert H.
    apply fold_iadd_not_nil, iadd_not_nil.
Qed.

Lemma string_app_assoc (a b c : string) :
  ((a ++ b) ++ c = a ++ (b ++ c))%string.
Proof. induction a; cbn; congruence. Qed.

Lemma string_app_nil (a : string) : (a ++ "" = a)%string.
Proof. induction a; cbn; congruence. Qed.

(** A loop that only appends keeps what the text began with. *)
Lemma fold_keeps_prefix {A} (step : string -> A -> string) :
  (forall s x, exists r, step s x = (s ++ r)%string) ->
  forall l s0, exists rest, fold_left step l s0 = (s0 ++ rest)%string.
Proof.
  intros Hstep. induction l as [|x l IH]; intros s0; cbn [fold_left].
  - exists ""%string. now rewrite string_app_nil.
  - destruct (Hstep s0 x) as (r & ->).
    destruct (IH (s0 ++ r)%string) as (rest & ->).
    exists (r ++ rest)%string. apply string_app_assoc.
Qed.

Definition plain_rendering : FinancialTools.rendering :=
  FinancialTools.mk_rendering (fun _ => "0.00"%string) (fun _ => "0.0"%string).

(** The tools answer with their fixed sentence when the data is absent:
    the spending summary when no transaction is an expense (and only
    then: with an expense its text begins "Spending Summary:"), the income
    analysis when no transaction has a positive amount, the debt analysis
    when no transaction is in a debt category. *)
Theorem tools_on_missing_data (fmt : FinancialTools.rendering) (self : t) :
  ((forall x, In x (transactions self) -> is_expense x = false) ->
     FinancialTools.get_spending_summary fmt self
     = "No spending data available."%string)
  /\ ((exists x, In x (transactions self) /\ is_expense x = true) ->
      String.prefix "Spending Summary:"
                    (FinancialTools.get_spending_summary fmt self) = true)
  /\ ((forall x, In x (transactions self) -> gt (amount x) 0 = false) ->
      FinancialTools.get_income_analysis fmt self
      = "No income data available."%string)
  /\ ((forall x, In x (transactions self) ->
                 in_debt_categories (category x) = false) ->
      FinancialTools.get_debt_analysis fmt self
      = "No debt payments found in transactions."%string).
Proof.
  split; [|split; [|split]].
  - intros Hno. unfold FinancialTools.get_spending_summary.
    now rewrite (proj2 (spending_empty_iff self) Hno).
  - intros (x & Hin & Hx). unfold FinancialTools.get_spending_summary.
    destruct (get_spending_by_category self) as [|item items] eqn:E.
    + rewrite (proj1 (spending_empty_iff self) E x Hin) in Hx. discriminate.
    + match goal with
      | |- context [fold_left ?step ?items ?start] =>
          assert (Hfold : exists rest,
                    fold_left step items start = (start ++ rest)%string)
      end.
      { apply fold_keeps_prefix. intros s [c amount]. eexists. reflexivity. }
      destruct Hfold as (rest & ->).
      rewrite !string_app_assoc. reflexivity.
  - intros Hno. unfold FinancialTools.get_income_analysis.
    now rewrite (income_summary_without_income self Hno).
  - intros Hno. unfold FinancialTools.get_debt_analysis, get_debt_analysis.
    now rewrite (proj2 (filter_nil_iff _ _) Hno).
Qed.

Lemma tools_on_missing_data_witness :
  FinancialTools.get_spending_summary plain_rendering (mk month_history)
  = "No spending data available."%string
  /\ String.prefix "Spending Summary:"
       (FinancialTools.get_spending_summary plain_rendering
          (mk unpaid_history)) = true
  /\ FinancialTools.get_income_analysis plain_rendering (mk unpaid_history)
     = "No income data available."%string
  /\ FinancialTools.get_debt_analysis plain_rendering (mk unpaid_history)
     = "No debt payments found in transactions."%string.
Proof.
  destruct (tools_on_missing_data plain_rendering (mk month_history))
    as (Hspend & _).
  destruct (tools_on_missing_data plain_rendering (mk unpaid_history))
    as (_ & Hprefix & Hincome & Hdebt).
  split; [|split; [|split]].
  - apply Hspend. intros x Hx. cbn in Hx.
    repeat (destruct Hx as [<-|Hx]; [reflexivity|]). destruct Hx.
  - apply Hprefix. eexists. split; [left; reflexivity | reflexivity].
  - apply Hincome. intros x Hx. cbn in Hx.
    repeat (destruct Hx as [<-|Hx]; [reflexivity|]). destruct Hx.
  - apply Hdebt. intros x Hx. cbn in Hx.
    repeat (destruct Hx as [<-|Hx]; [reflexivity|]). destruct Hx.
Defined.

End ToolsOnMissingData.

(** ** Enum cells of a row *)

Section EnumCells.
Import Py TransactionLoader.

Lemma to_lower_idempotent c : to_lower (to_lower c) = to_lower c.
Proof.
  destruct c as [[] [] [] [] [] [] [] []]; reflexivity.
Qed.

Lemma lower_idempotent s : lower (lower s) = lower s.
Proof.
  induction s as [|c s IH]; cbn [lower]; [reflexivity|].
  now rewrite to_lower_idempotent, IH.
Qed.

Lemma lower_app a b : lower (a ++ b) = (lower a ++ lower b)%string.
Proof. induction a as [|c a IH]; cbn; [reflexivity | now rewrite IH]. Qed.

(** The category cell of a row: every member is found again from its own
    value, whatever the letter case of the cell; a cell is accepted only
    when its lower-cased text is the value of the member returned; and a
    missing cell gives [OTHER]. *)
Theorem parse_category_round_trip :
  (forall c, parse_category (Some (TransactionCategory.value c)) = Return c)
  /\ (forall cell,
        parse_category (Some (lower cell)) = parse_category (Some cell))
  /\ (forall cell c,
        parse_category (Some cell) = Return c ->
        lower cell = TransactionCategory.value c)
  /\ parse_category None = Return TransactionCategory.OTHER.
Proof.
  split; [|split; [|split]].
  - intros c. destruct c; reflexivity.
  - intros cell. unfold parse_category. now rewrite lower_idempotent.
  - intros cell c. unfold parse_category, by_value.
    destruct (find _ categories) as [m|] eqn:E; [|discriminate].
    intros H. injection H as <-.
    apply find_some in E as [_ E]. apply String.eqb_eq in E. now symmetry.
  - reflexivity.
Qed.

Lemma parse_category_round_trip_witness :
  lower "Credit_Card_Payment"%string
  = TransactionCategory.value TransactionCategory.CREDIT_CARD_PAYMENT.
Proof.
  apply (proj1 (proj2 (proj2 parse_category_round_trip))
           "Credit_Card_Payment"%string
           TransactionCategory.CREDIT_CARD_PAYMENT).
  reflexivity.
Defined.

(** The type cell of a row, likewise; a missing cell gives [DEBIT]. *)
Theorem parse_type_round_trip :
  (forall t, parse_type (Some (type_value t)) = Return t)
  /\ (forall cell, parse_type (Some (lower cell)) = parse_type (Some cell))
  /\ (forall cell t,
        parse_type (Some cell) = Return t -> lower cell = type_value t)
  /\ parse_type None = Return TransactionType.DEBIT.
Proof.
  split; [|split; [|split]].
  - intros t. destruct t; reflexivity.
  - intros cell. unfold parse_type. now rewrite lower_idempotent.
  - intros cell t. unfold parse_type, by_value.
    destruct (find _ types) as [m|] eqn:E; [|discriminate].
    intros H. injection H as <-.
    apply find_some in E as [_ E]. apply String.eqb_eq in E. now symmetry.
  - reflexivity.
Qed.

Lemma parse_type_round_trip_witness :
  lower "TRANSFER"%string = type_value TransactionType.TRANSFER.
Proof.
  apply (proj1 (proj2 (proj2 parse_type_round_trip))
           "TRANSFER"%string TransactionType.TRANSFER).
  reflexivity.
Defined.

End EnumCells.

(** ** The text loop *)

Section TextLoop.
Import Py LangGraph TextMode.

Definition typed_line (line : string) : string :=
  FinancialCoachVoiceAgent.strip line.

(** Once a line is "quit", "exit" or "q" (in any letter case, spaces
    around it aside) the loop has ended: what was printed and persisted is
    what the lines before it gave, and no later line reaches the coach. *)
Theorem text_loop_stops_at_quit (agent : FinancialCoachAgent.t)
    (memory : MemorySaver) (before after : list string) (line : string) :
  is_quit (typed_line line) = true ->
  run_text_mode agent memory (before ++ line :: after)
  = (fst (fst (run_text_mode agent memory before)),
     snd (fst (run_text_mode agent memory before)),
     true).
Proof.
  intros Hquit. revert memory.
  induction before as [|l before IH]; intros memory;
    cbn [app run_text_mode].
  - unfold typed_line in Hquit. now rewrite Hquit.
  - destruct (is_quit (FinancialCoachVoiceAgent.strip l)); [reflexivity|].
    destruct (negb (truthy (FinancialCoachVoiceAgent.strip l))); [apply IH|].
    destruct (FinancialCoachAgent.chat _ _ _ _ _) as [response memory'].
    rewrite IH.
    destruct (run_text_mode agent memory' before) as [[m outs] ended].
    reflexivity.
Qed.

Lemma text_loop_stops_at_quit_witness :
  snd (fst (run_text_mode plain_coach empty
              [first_question; "  QUIT "%string; second_question]))
  = [coach_says (FinancialCoachAgent.mk_response
                   "Rent is your largest expense."
                   "Rent is your largest expense.")]
  /\ snd (run_text_mode plain_coach empty
            [first_question; "  QUIT "%string; second_question])
     = true.
Proof.
  pose proof (text_loop_stops_at_quit plain_coach empty [first_question]
                [second_question] "  QUIT "%string eq_refl) as H.
  cbn [app] in H. rewrite H. split; reflexivity.
Defined.

Definition print_of (r : result FinancialCoachAgent.response) : printed :=
  match r with
  | Return response => coach_says response
  | Raise e => error_says e
  end.

(** The coach asked one question after the other on the thread of the
    user id, the checkpointer carried from call to call: the checkpointer
    at the end and, for each question in order, the answer or the error of
    its call. *)
Fixpoint asked_in_turn (agent : FinancialCoachAgent.t) (memory : MemorySaver)
    (questions : list string) : MemorySaver * list printed :=
  match questions with
  | [] => (memory, [])
  | question :: rest =>
      let '(r, memory) :=
        FinancialCoachAgent.chat agent memory question None None in
      let '(memory, outs) := asked_in_turn agent memory rest in
      (memory, print_of r :: outs)
  end.

(** The questions of the lines typed: the lines stripped, the blank ones
    left out. *)
Definition questions_of (typed : list string) : list string :=
  filter truthy (map typed_line typed).

(** As long as no line is a quit word the loop goes on, and what it has
    done is to ask the coach the non-blank lines, stripped, in order, and
    nothing else: blank lines do not reach the coach, and for every
    non-blank line exactly one thing is printed, the answer of [chat] to
    that line or the error it raised, after which the next line is read:
    an exception of [chat] never ends the loop. *)
Theorem text_loop_prints_once_per_line (agent : FinancialCoachAgent.t)
    (memory : MemorySaver) (typed : list string) :
  Forall (fun line => is_quit (typed_line line) = false) typed ->
  run_text_mode agent memory typed
  = (fst (asked_in_turn agent memory (questions_of typed)),
     snd (asked_in_turn agent memory (questions_of typed)),
     false)
  /\ List.length (snd (fst (run_text_mode agent memory typed)))
     = List.length (filter (fun line => truthy (typed_line line)) typed).
Proof.
  intros Hq. revert memory.
  induction Hq as [|l typed Hl _ IH]; intros memory;
    cbn [run_text_mode filter].
  - split; reflexivity.
  - unfold questions_of in *. cbn [map filter].
    unfold typed_line in *. rewrite Hl.
    destruct (truthy (FinancialCoachVoiceAgent.strip l)); cbn [negb].
    + cbn [asked_in_turn].
      destruct (FinancialCoachAgent.chat _ _ _ _ _) as [response memory'].
      destruct (IH memory') as [Hrun Hlen].
      rewrite Hrun in *.
      destruct (asked_in_turn agent memory' _) as [m outs].
      cbn [fst snd List.length] in *. split; [reflexivity|].
      now rewrite Hlen.
    + apply IH.
Qed.

Lemma text_loop_prints_once_per_line_witness :
  snd (fst (run_text_mode looping_coach empty
              [first_question; "   "%string; second_question]))
  = [error_says (recursion_error 10); error_says (recursion_error 10)]
  /\ snd (run_text_mode looping_coach empty
            [first_question; "   "%string; second_question]) = false.
Proof.
  destruct (text_loop_prints_once_per_line looping_coach empty
              [first_question; "   "%string; second_question])
    as [Hrun _].
  - repeat constructor.
  - rewrite Hrun. split; reflexivity.
Defined.

End TextLoop.

(** ** Turns of the voice agent *)

Section VoiceNode.
Import Py LangGraph FinancialCoachVoiceAgent.

(** The text of an item: its text parts joined by spaces, stripped. *)
Definition item_text (msg : ChatItem) : string :=
  strip (join (texts_of (item_content msg))).

Definition speaks (msg : ChatItem) : bool :=
  is_user msg && truthy (item_text msg).

Lemma not_truthy s : truthy s = false -> s = ""%string.
Proof.
  unfold truthy. intros H. now apply negb_false_iff, String.eqb_eq in H.
Qed.

Lemma extract_from_find reversed :
  extract_from reversed ""
  = match find speaks reversed with
    | Some msg => item_text msg
    | None => ""%string
    end.
Proof.
  induction reversed as [|msg rest IH]; cbn [extract_from find];
    [reflexivity|].
  unfold speaks at 1. fold (item_text msg).
  destruct (is_user msg); cbn [andb]; [|exact IH].
  destruct (truthy (item_text msg)) eqn:E; [reflexivity|].
  rewrite (not_truthy _ E). exact IH.
Qed.

(** The user text of a turn is the text of the most recent item of the
    context whose role contains "user" and whose text is not blank; items
    of other roles and user items with blank text are passed over; it is
    empty when there is no such item. *)
Theorem extract_user_text_most_recent (messages : list ChatItem) :
  extract_user_text messages
  = match find speaks (rev messages) with
    | Some msg => item_text msg
    | None => ""%string
    end.
Proof. unfold extract_user_text. apply extract_from_find. Qed.

(** [llm_node] hands over to the default pipeline exactly when no user
    text can be extracted, and then the checkpointer and the stored
    identifier are untouched. *)
Theorem llm_node_delegates_without_text (self : FinancialCoachVoiceAgent.t)
    (messages : list ChatItem) :
  (snd (llm_node self messages) = delegated
   <-> extract_user_text messages = ""%string)
  /\ (extract_user_text messages = ""%string ->
      fst (llm_node self messages) = self).
Proof.
  unfold llm_node. split; [split|].
  - destruct (truthy (extract_user_text messages)) eqn:E; cbn [negb].
    + destruct (FinancialCoachAgent.chat _ _ _ _ _) as [[r|e] m];
        [|discriminate].
      destruct (differs _ _); [destruct (has_trigger _)|]; discriminate.
    + intros _. now apply not_truthy.
  - intros ->. reflexivity.
  - intros ->. reflexivity.
Qed.

Definition greeting_only : list ChatItem :=
  [mk_item (Some "assistant"%string)
           (content_list [part_str "Hi! How can I help you today?"])
           (Some "item_1"%string);
   mk_item (Some "user"%string) (content_list [part_str "   "; part_other])
           (Some "item_2"%string)].

Lemma llm_node_delegates_without_text_witness :
  llm_node voice_coach greeting_only = (voice_coach, delegated).
Proof.
  destruct (llm_node_delegates_without_text voice_coach greeting_only)
    as [[_ Hout] Hstate].
  specialize (Hout eq_refl). specialize (Hstate eq_refl).
  destruct (llm_node voice_coach greeting_only) as [s o].
  cbn [fst snd] in *. now subst.
Defined.

(** A turn with user text whose identifier differs from the stored one
    and whose text holds a trigger keyword, and which the coach answers,
    schedules exactly one card, with the user text as question, the
    [detail] of the answer as content and the session id of the call;
    it yields the [voice] of the answer and stores the identifier. *)
Theorem llm_node_publishes_card (self : FinancialCoachVoiceAgent.t)
    (messages : list ChatItem) (answer : FinancialCoachAgent.response) :
  truthy (turn_text messages) = true ->
  fst (FinancialCoachAgent.chat (financial_agent self) (memory self)
         (turn_text messages) None (Some (session_id self)))
  = Return answer ->
  differs (turn_id messages) (last_handled_user_msg_id self) = true ->
  has_trigger (turn_text messages) = true ->
  snd (llm_node self messages)
  = replied (FinancialCoachAgent.voice answer)
      [mk_card "financial_data_card" (turn_text messages)
               (FinancialCoachAgent.detail answer) (session_id self)]
  /\ last_handled_user_msg_id (fst (llm_node self messages))
     = Some (turn_id messages).
Proof.
  unfold turn_id, turn_text, llm_node. intros Htext Hchat Hdiff Htrig.
  rewrite Htext. cbn [negb].
  destruct (FinancialCoachAgent.chat _ _ _ _ _) as [result memory'].
  cbn [fst] in Hchat. subst result.
  cbn [last_handled_user_msg_id]. rewrite Hdiff, Htrig.
  split; reflexivity.
Qed.

Lemma llm_node_publishes_card_witness :
  snd (llm_node voice_coach budget_turn)
  = replied "Rent is your largest expense."
      [mk_card "financial_data_card" "What should my budget be?"
               "Rent is your largest expense." call_1]
  /\ last_handled_user_msg_id (fst (llm_node voice_coach budget_turn))
     = Some "item_2"%string.
Proof.
  apply (llm_node_publishes_card voice_coach budget_turn
           (FinancialCoachAgent.mk_response "Rent is your largest expense."
              "Rent is your largest expense.")); reflexivity.
Defined.

(** When [chat] raises in a turn, the exception leaves [llm_node]: nothing
    is yielded, no card is scheduled and the stored identifier stays,
    while the checkpointer keeps what the run persisted. *)
Theorem llm_node_lets_exception_through (self : FinancialCoachVoiceAgent.t)
    (messages : list ChatItem) (e : exn) :
  truthy (turn_text messages) = true ->
  fst (FinancialCoachAgent.chat (financial_agent self) (memory self)
         (turn_text messages) None (Some (session_id self)))
  = Raise e ->
  snd (llm_node self messages) = raised e
  /\ last_handled_user_msg_id (fst (llm_node self messages))
     = last_handled_user_msg_id self
  /\ memory (fst (llm_node self messages))
     = snd (FinancialCoachAgent.chat (financial_agent self) (memory self)
              (turn_text messages) None (Some (session_id self))).
Proof.
  unfold turn_text, llm_node. intros Htext Hchat.
  rewrite Htext. cbn [negb].
  destruct (FinancialCoachAgent.chat _ _ _ _ _) as [result memory'].
  cbn [fst] in Hchat. subst result. repeat split.
Qed.

Definition looping_voice_coach : FinancialCoachVoiceAgent.t :=
  FinancialCoachVoiceAgent.mk looping_coach LangGraph.empty call_1 None.

Lemma llm_node_lets_exception_through_witness :
  snd (llm_node looping_voice_coach budget_turn)
  = raised (recursion_error 10).
Proof.
  apply (llm_node_lets_exception_through looping_voice_coach budget_turn
           (recursion_error 10)); reflexivity.
Defined.

(** In a call, whatever the turns: there is one outcome per turn, the
    wrapped coach and the session id never change, and every card
    scheduled is of type "financial_data_card" and carries the session id
    of the call. *)
Theorem session_keeps_identity (self : FinancialCoachVoiceAgent.t)
    (turns : list (list ChatItem)) :
  List.length (snd (session self turns)) = List.length turns
  /\ session_id (fst (session self turns)) = session_id self
  /\ financial_agent (fst (session self turns)) = financial_agent self
  /\ Forall (fun o =>
               Forall (fun card =>
                         card_type card = "financial_data_card"%string
                         /\ session_id_of card = session_id self)
                      (tasks_of o))
            (snd (session self turns)).
Proof.
  split; [apply session_length|].
  revert self. induction turns as [|messages turns IH]; intros self;
    cbn [session].
  - repeat split. constructor.
  - assert (Hnode : session_id (fst (llm_node self messages)) = session_id self
                    /\ financial_agent (fst (llm_node self messages))
                       = financial_agent self
                    /\ Forall (fun card =>
                                 card_type card = "financial_data_card"%string
                                 /\ session_id_of card = session_id self)
                              (tasks_of (snd (llm_node self messages)))).
    { unfold llm_node.
      destruct (negb (truthy (extract_user_text messages)));
        [repeat split; constructor|].
      destruct (FinancialCoachAgent.chat _ _ _ _ _) as [[r|e] m];
        [|repeat split; constructor].
      destruct (differs _ _); [destruct (has_trigger _)|];
        repeat split; repeat constructor. }
    destruct (llm_node self messages) as [self1 o]. cbn [fst snd] in Hnode.
    destruct Hnode as (Hsid & Hagent & Hcards).
    specialize (IH self1).
    destruct (session self1 turns) as [self2 os]. cbn [fst snd] in *.
    destruct IH as (Hsid2 & Hagent2 & Hall).
    rewrite Hsid2, Hagent2, Hsid, Hagent. repeat split.
    constructor; [exact Hcards|]. now rewrite <- Hsid.
Qed.

(** A trigger keyword anywhere in the user text, in any letter case,
    makes the text data-seeking. *)
Theorem trigger_keyword_any_case (before variant after keyword : string) :
  In keyword _DATA_TRIGGER_KEYWORDS ->
  lower variant = keyword ->
  has_trigger (before ++ variant ++ after) = true.
Proof.
  intros Hin Hvariant. unfold has_trigger. apply existsb_exists.
  exists keyword. split; [exact Hin|].
  rewrite !lower_app, Hvariant. apply str_in_middle.
Qed.

Lemma trigger_keyword_any_case_witness :
  has_trigger ("Show me a " ++ "Payoff" ++ " plan") = true.
Proof.
  apply (trigger_keyword_any_case "Show me a " "Payoff" " plan" "payoff").
  - cbn. tauto.
  - reflexivity.
Defined.

End VoiceNode.

(** ** Tools that need the months *)

Section ToolsThatNeedMonths.
Import Py FinancialAnalyzer.

(** On a constructed analyzer the two tools that divide by the months
    return a text, they never raise; the text of the budget tool begins
    "Budget Recommendations:", and the issues tool answers its fixed
    sentence exactly when the analyzer flags no pattern. *)
Theorem report_tools_return (fmt : FinancialTools.rendering)
    (txns : list Transaction) (self : t) :
  __init__ txns = Return self ->
  (exists patterns text,
     identify_spending_patterns self = Return patterns
     /\ FinancialTools.identify_spending_issues fmt self = Return text
     /\ (patterns = [] ->
         text = "No significant spending issues identified."%string))
  /\ (exists text,
        FinancialTools.get_budget_recommendations fmt self = Return text
        /\ String.prefix "Budget Recommendations:" text = true).
Proof.
  intros Hinit.
  destruct (months_of_valid _ _ Hinit) as (t0 & ts & _ & Hmonths).
  split.
  - assert (Hp : exists patterns,
              identify_spending_patterns self = Return patterns).
    { unfold identify_spending_patterns. rewrite Hmonths. cbn [bind].
      eexists. reflexivity. }
    destruct Hp as (patterns & Hp).
    unfold FinancialTools.identify_spending_issues. rewrite Hp. cbn [bind].
    destruct patterns as [|p ps]; eexists _, _;
      (split; [reflexivity|]); (split; [reflexivity|]).
    + reflexivity.
    + discriminate.
  - assert (Hb : exists budget,
              get_budget_recommendations self = Return budget).
    { unfold get_budget_recommendations. rewrite Hmonths. cbn [bind].
      destruct (fold_left _ targets _). eexists. reflexivity. }
    destruct Hb as (budget & Hb).
    unfold FinancialTools.get_budget_recommendations. rewrite Hb. cbn [bind].
    destruct (BudgetRecommendations.recommendations budget) as [|rec recs].
    + eexists. split; reflexivity.
    + match goal with
      | |- context [fold_left ?step ?items ?start] =>
          assert (Hfold : exists rest,
                    fold_left step items start = (start ++ rest)%string)
      end.
      { apply fold_keeps_prefix. intros s rec'. eexists. reflexivity. }
      destruct Hfold as (rest & ->). eexists. split; [reflexivity|].
      rewrite !string_app_assoc. reflexivity.
Qed.

Lemma report_tools_return_witness :
  FinancialTools.identify_spending_issues plain_rendering (mk month_history)
  = Return "No significant spending issues identified."%string.
Proof.
  destruct (report_tools_return plain_rendering month_history
              (mk month_history) eq_refl)
    as [(patterns & text & Hp & Ht & Hnone) _].
  rewrite Ht. f_equal. apply Hnone.
  vm_compute in Hp. now injection Hp as <-.
Defined.

End ToolsThatNeedMonths.
